(** * ovos-PHAL-plugin-system: the [SystemEvents] bus handlers

    A shallow embedding of [ovos_PHAL_plugin_system/__init__.py].

    - Message payloads ([message.data]) are dictionaries from strings to
      JSON scalars (null, booleans, integers, strings); floats, arrays and
      nested objects are left out.
    - A handler is a computation in a state-and-exception monad over a
      [world]: the filesystem, [os.environ], the plugin attribute
      [factory_reset_plugs] and the chronological list of effects that leave
      the process (bus emissions, shell commands, GUI calls, ...).  What was
      done before an exception is raised stays done, as in Python.
    - Paths are compared as literal strings; the filesystem has no
      permissions and no links, so a guarded [os.remove] succeeds and
      opening a file for writing fails only on a directory.
    - What a shell command or a script does to the filesystem is not
      followed; the call is recorded.
    - [LOG] calls do not change the state and are not recorded.
    - Constants and helpers that come from other packages ([ovos_config],
      [ovos_utils], [json_database], [ovos_backend_client]) are parameters.
    - Text is ASCII: [str.lower] is modelled on the letters [A-Z]. *)

From Stdlib Require Import ZArith Ascii String.
From stdpp Require Import gmap strings list fin_maps pretty.

#[local] Open Scope string_scope.
#[local] Open Scope Z_scope.

(** ** Payload values and their Python semantics *)

Inductive value : Type :=
  | VNone
  | VBool (b : bool)
  | VInt (n : Z)
  | VStr (s : string).

#[global] Instance value_eq_dec : EqDecision value.
Proof. solve_decision. Defined.

(** [bool(v)] *)
Definition truthy (v : value) : bool :=
  match v with
  | VNone => false
  | VBool b => b
  | VInt n => negb (n =? 0)
  | VStr s => negb (String.eqb s "")
  end.

(** Python's numeric tower: [True == 1] and [False == 0]. *)
Definition as_int (v : value) : option Z :=
  match v with
  | VBool true => Some 1
  | VBool false => Some 0
  | VInt n => Some n
  | _ => None
  end.

(** [a == b] *)
Definition py_eq (a b : value) : bool :=
  match a, b with
  | VNone, VNone => true
  | VStr s, VStr t => String.eqb s t
  | VNone, _ | _, VNone | VStr _, _ | _, VStr _ => false
  | _, _ =>
      match as_int a, as_int b with
      | Some m, Some n => m =? n
      | _, _ => false
      end
  end.

(** [x in l], for a list [l] *)
Definition py_in (x : value) (l : list value) : bool :=
  existsb (fun y => py_eq y x) l.

(** [str(v)], what an f-string substitutes for [{v}] *)
Definition py_str (v : value) : string :=
  match v with
  | VNone => "None"
  | VBool true => "True"
  | VBool false => "False"
  | VInt n => pretty n
  | VStr s => s
  end.

(** The idiom of lines 102-103 and 171-172:
    [if sid not in l: l.append(sid)]. *)
Definition append_if_absent (sid : value) (l : list value) : list value :=
  if py_in sid l then l else l ++ [sid].

(** ** Strings *)

Definition newline : string := String (ascii_of_nat 10) EmptyString.

Definition lower_ascii (c : ascii) : ascii :=
  let n := nat_of_ascii c in
  if ((65 <=? n)%nat && (n <=? 90)%nat)%bool then ascii_of_nat (n + 32) else c.

Fixpoint map_string (f : ascii -> ascii) (s : string) : string :=
  match s with
  | EmptyString => EmptyString
  | String c s' => String (f c) (map_string f s')
  end.

(** [s.lower()] *)
Definition lower (s : string) : string := map_string lower_ascii s.

(** [s.replace(old, new)] for one-character [old] and [new] *)
Definition replace_char (old new : ascii) (s : string) : string :=
  map_string (fun c => if Ascii.eqb c old then new else c) s.

(** [language_code.lower().replace("_", "-")], line 284 *)
Definition normalize_lang (s : string) : string :=
  replace_char "_" "-" (lower s).

(** ** Dictionaries and bus messages *)

Abbreviation dict := (gmap string value).

(** [d.get(k, default)] *)
Definition dict_get (d : dict) (k : string) (dflt : value) : value :=
  default dflt (d !! k).

(** [k in d] *)
Definition has_key (d : dict) (k : string) : bool :=
  bool_decide (is_Some (d !! k)).

Record message : Type := Message {
  msg_type : string;
  data : dict;
  context : dict
}.

(** [Message.forward(msg_type, data=None)]: same context, and an empty
    payload unless one is given. *)
Definition forward (m : message) (ty : string) (d : option dict) : message :=
  Message ty (default ∅ d) (context m).

(** ** The filesystem *)

Inductive node : Type :=
  | File (content : string)
  | Dir.

#[global] Instance node_eq_dec : EqDecision node.
Proof. solve_decision. Defined.

Abbreviation filesystem := (gmap string node).

(** [os.path.isfile(p)] and [os.path.isdir(p)] *)
Definition is_file (f : filesystem) (p : string) : bool :=
  match f !! p with Some (File _) => true | _ => false end.

Definition is_dir (f : filesystem) (p : string) : bool :=
  match f !! p with Some Dir => true | _ => false end.

(** [q] is the path [p] itself or lies below the directory [p]. *)
Definition is_under (p q : string) : bool :=
  (String.eqb p q || String.prefix (p ++ "/") q)%bool.

(** [shutil.rmtree(p, ignore_errors=True)]: the directory goes with all
    that is below it; on anything else the call does nothing. *)
Definition rmtree (p : string) (f : filesystem) : filesystem :=
  if is_dir f p then filter (fun kv => is_under p kv.1 = false) f else f.

(** ** Effects that leave the process, in the order they happen *)

Inductive effect : Type :=
  | EEmit (m : message)                       (* self.bus.emit(m) *)
  | EBusOn (topic : string)                   (* self.bus.on(topic, on_done) *)
  | EBusRemove (topic : string)               (* self.bus.remove(topic, on_done) *)
  | EWait (elapsed : Z) (is_set : bool)       (* event.wait(timeout=60) *)
  | EShell (cmd : string)                     (* subprocess.call(cmd, shell=True) *)
  | EGuiSet (key val : string)                (* self.gui[key] = val *)
  | EGuiShow (page : string) (override : bool)(* self.gui.show_page(page, ...) *)
  | ESetDefaultLang (lang : string)           (* set_default_lang(lang) *)
  | EUpdateConfig (patch : dict)              (* update_mycroft_config(patch, bus) *)
  | ERestartService (name : string) (sudo user : bool).

Record world : Type := World {
  fs : filesystem;
  environ : gmap string string;
  factory_reset_plugs : list value;
  trace : list effect
}.

Definition set_fs (f : filesystem) (w : world) : world :=
  World f (environ w) (factory_reset_plugs w) (trace w).

Definition set_plugs (l : list value) (w : world) : world :=
  World (fs w) (environ w) l (trace w).

Definition record (e : effect) (w : world) : world :=
  World (fs w) (environ w) (factory_reset_plugs w) (trace w ++ [e]).

(** ** The handler monad: state and exceptions *)

Inductive exn : Type :=
  | KeyError (key : string)
  | AttributeError (attr : string)
  | FileNotFoundError (path : string)
  | IsADirectoryError (path : string)
  | CalledProcessError (cmd : string).

Inductive result (A : Type) : Type :=
  | Ok (a : A)
  | Raise (e : exn).
Arguments Ok {A} a.
Arguments Raise {A} e.

Definition M (A : Type) : Type := world -> result A * world.

Definition ret {A} (a : A) : M A := fun w => (Ok a, w).

Definition bind {A B} (c : M A) (k : A -> M B) : M B :=
  fun w => match c w with
           | (Ok a, w') => k a w'
           | (Raise e, w') => (Raise e, w')
           end.

Definition raise {A} (e : exn) : M A := fun w => (Raise e, w).

(** [try: c / except: h] *)
Definition try_except {A} (c h : M A) : M A :=
  fun w => match c w with
           | (Ok a, w') => (Ok a, w')
           | (Raise _, w') => h w'
           end.

Definition gets {A} (f : world -> A) : M A := fun w => (Ok (f w), w).

Definition modify (f : world -> world) : M unit := fun w => (Ok tt, f w).

#[global] Instance M_ret : MRet M := @ret.
#[global] Instance M_bind : MBind M := fun A B k c => bind c k.

(** [for x in l: body(x)] *)
Fixpoint for_each {A} (l : list A) (body : A -> M unit) : M unit :=
  match l with
  | [] => ret tt
  | x :: l' => body x;; for_each l' body
  end.

Definition when (b : bool) (c : M unit) : M unit := if b then c else ret tt.

(** *** Primitive operations *)

Definition emit (m : message) : M unit := modify (record (EEmit m)).
Definition bus_on (topic : string) : M unit := modify (record (EBusOn topic)).
Definition bus_remove (topic : string) : M unit := modify (record (EBusRemove topic)).
Definition shell (cmd : string) : M unit := modify (record (EShell cmd)).
Definition gui_set (key val : string) : M unit := modify (record (EGuiSet key val)).
Definition gui_show_page (page : string) (override : bool) : M unit :=
  modify (record (EGuiShow page override)).

Definition os_path_isfile (p : string) : M bool := gets (fun w => is_file (fs w) p).
Definition os_path_isdir (p : string) : M bool := gets (fun w => is_dir (fs w) p).

(** [os.remove(p)] *)
Definition os_remove (p : string) : M unit :=
  fun w => match fs w !! p with
           | Some (File _) => (Ok tt, set_fs (delete p (fs w)) w)
           | Some Dir => (Raise (IsADirectoryError p), w)
           | None => (Raise (FileNotFoundError p), w)
           end.

Definition shutil_rmtree (p : string) : M unit :=
  modify (fun w => set_fs (rmtree p (fs w)) w).

(** [os.environ[k]] *)
Definition os_environ (k : string) : M string :=
  fun w => match environ w !! k with
           | Some v => (Ok v, w)
           | None => (Raise (KeyError k), w)
           end.

(** [with open(p, "w") as f: f.write(content)] *)
Definition write_file (p content : string) : M unit :=
  fun w => match fs w !! p with
           | Some Dir => (Raise (IsADirectoryError p), w)
           | _ => (Ok tt, set_fs (<[p := File content]> (fs w)) w)
           end.

(** [d[k]] *)
Definition getitem (d : dict) (k : string) : M value :=
  match d !! k with
  | Some v => ret v
  | None => raise (KeyError k)
  end.

(** ** What the plugin is given *)

(** Paths computed by [ovos_config], [ovos_utils.xdg_utils],
    [json_database] and [ovos_backend_client]. *)
Record locations : Type := {
  OLD_IDENTITY_FILE : string;             (* IdentityManager.OLD_IDENTITY_FILE *)
  IDENTITY_FILE : string;                 (* IdentityManager.IDENTITY_FILE *)
  xdg_cache_home : string;
  xdg_data_home : string;
  xdg_state_home : string;
  get_xdg_base : string;
  JsonStorageXDG_path : string -> string; (* JsonStorageXDG(j).path *)
  JsonDatabaseXDG_path : string -> string;(* JsonDatabaseXDG(j).db.path *)
  OLD_USER_CONFIG : string;
  USER_CONFIG : string;
  WEB_CONFIG_CACHE : string;
  plugin_dir : string                     (* dirname(__file__) *)
}.

(** Queries answered by the operating system and by [ovos_bus_client]. *)
Record host : Type := {
  expanduser : string -> string;                (* os.path.expanduser *)
  is_process_running : string -> bool;
  check_service_installed : string -> bool;
  check_service_active : string -> bool;
  restart_service_ok : string -> bool -> bool -> bool;
                                                (* does restart_service return? *)
  reply_context : dict -> dict                  (* context built by Message.reply *)
}.

(** The attributes set by [__init__] from the plugin configuration. *)
Record plugin_config : Type := {
  reset_script : string;             (* self.config.get("reset_script", "") *)
  reboot_script : string;            (* self.config.get("reboot_script") or "" *)
  shutdown_script : string;          (* self.config.get("shutdown_script") or "" *)
  external_requested : option bool;  (* self.config.get("use_external_factory_reset") *)
  core_service_name : string;
  ssh_service : string
}.

(** ** The acknowledgment wait (lines 165-180) *)

(** The closure variables of [on_done]: [reset_plugs] and [event]. *)
Record ack_state : Type := AckState {
  reset_plugs : list value;
  event : bool
}.

Definition no_acks : ack_state := AckState [] false.

(** [on_done(message)], lines 168-174; [plugs] is
    [self.factory_reset_plugs] as it is when the listener runs. *)
Definition on_done (plugs : list value) (st : ack_state) (d : dict)
  : result ack_state :=
  match d !! "skill_id" with
  | None => Raise (KeyError "skill_id")
  | Some sid =>
      let reset_plugs' := append_if_absent sid (reset_plugs st) in
      if forallb (fun s => py_in s reset_plugs') plugs
      then Ok (AckState reset_plugs' true)
      else Ok (AckState reset_plugs' (event st))
  end.

(** Lines 101-103 of [handle_reset_register], reached when the payload has
    a true [skill_id]; otherwise the participant list is not written. *)
Definition register_plug (d : dict) (plugs : list value) : list value :=
  if truthy (dict_get d "skill_id" VNone)
  then match d !! "skill_id" with
       | Some sid => append_if_absent sid plugs
       | None => plugs
       end
  else plugs.

(** What the bus delivers to this plugin while the reset handler waits:
    acknowledgments ([system.factory.reset.phal.complete], to [on_done])
    and registrations ([system.factory.reset.register]).  Each carries the
    time of its delivery in milliseconds, counted from the call of
    [event.wait]; a delivery between [bus.on] and [event.wait] has a
    negative time.  Deliveries are handled one at a time. *)
Inductive arrival : Type :=
  | Ack (d : dict)
  | Register (d : dict).

Abbreviation timeline := (list (Z * arrival)).

(** [timeout=60], in milliseconds *)
Definition wait_timeout : Z := 60 * 1000.

Record wait_result : Type := WaitResult {
  elapsed : Z;             (* how long [event.wait] blocked *)
  is_set : bool;           (* what [event.wait] returned *)
  plugs_after : list value;
  acks_after : ack_state
}.

(** [event.wait(timeout=60)] against the deliveries [tl]: it returns as soon
    as a run of [on_done] sets the event, and at the deadline otherwise.
    A run of [on_done] that raises leaves the closure variables as they
    were. *)
Fixpoint event_wait (tl : timeline) (plugs : list value) (st : ack_state)
  : wait_result :=
  match tl with
  | [] => WaitResult wait_timeout false plugs st
  | (t, a) :: tl' =>
      if bool_decide (wait_timeout <= t) then WaitResult wait_timeout false plugs st
      else match a with
           | Register d => event_wait tl' (register_plug d plugs) st
           | Ack d =>
               match on_done plugs st d with
               | Raise _ => event_wait tl' plugs st
               | Ok st' =>
                   if event st' then WaitResult (Z.max 0 t) true plugs st'
                   else event_wait tl' plugs st'
               end
           end
  end.

(** ** The handlers of [SystemEvents] *)

Section SystemEvents.
Context (loc : locations) (os : host) (cfg : plugin_config).

(** The property [use_external_factory_reset], lines 82-89. *)
Definition use_external_factory_reset : bool :=
  match external_requested cfg with
  | None => if is_process_running os "ovos-shell" then true else false
  | Some b => b
  end.

Definition page (name : string) : string := plugin_dir loc ++ "/ui/" ++ name.

(** [if os.path.isfile(p): os.remove(p)] *)
Definition remove_if_file (p : string) : M unit :=
  b ← os_path_isfile p; when b (os_remove p).

(** [if os.path.isdir(p): shutil.rmtree(p, ignore_errors=True)] *)
Definition rmtree_if_dir (p : string) : M unit :=
  b ← os_path_isdir p; when b (shutil_rmtree p).

(** Lines 110-113: the identity files go, whatever the request says. *)
Definition wipe_identity : M unit :=
  remove_if_file (OLD_IDENTITY_FILE loc);;
  remove_if_file (IDENTITY_FILE loc).

Definition cache_dir : string := xdg_cache_home loc ++ "/" ++ get_xdg_base loc.
Definition data_dir : string := xdg_data_home loc ++ "/" ++ get_xdg_base loc.
Definition state_dir : string := xdg_state_home loc ++ "/" ++ get_xdg_base loc.

Definition json_storages : list string :=
  ["ovos_device_info"; "ovos_oauth"; "ovos_oauth_apps"; "ovos_devices";
   "ovos_metrics"; "ovos_preferences"; "ovos_skills_meta"].

Definition json_databases : list string :=
  ["ovos_metrics"; "ovos_utterances"; "ovos_wakewords"].

(** Lines 115-119 *)
Definition wipe_cache (d : dict) : M unit :=
  when (truthy (dict_get d "wipe_cache" (VBool true)))
       (rmtree_if_dir cache_dir).

(** Lines 121-143 *)
Definition wipe_data (d : dict) : M unit :=
  when (truthy (dict_get d "wipe_data" (VBool true)))
       (rmtree_if_dir data_dir;;
        for_each json_storages
                 (fun j => remove_if_file (JsonStorageXDG_path loc j));;
        for_each json_databases
                 (fun j => remove_if_file (JsonDatabaseXDG_path loc j))).

(** Lines 145-149 *)
Definition wipe_logs (d : dict) : M unit :=
  when (truthy (dict_get d "wipe_logs" (VBool true)))
       (rmtree_if_dir state_dir).

(** Lines 151-158 *)
Definition wipe_configs (d : dict) : M unit :=
  when (truthy (dict_get d "wipe_configs" (VBool true)))
       (remove_if_file (OLD_USER_CONFIG loc);;
        remove_if_file (USER_CONFIG loc);;
        remove_if_file (WEB_CONFIG_CACHE loc)).

(** Lines 110-158 *)
Definition wipe_stores (d : dict) : M unit :=
  wipe_identity;; wipe_cache d;; wipe_data d;; wipe_logs d;; wipe_configs d.

(** Lines 162-180: the broadcast to the registered plugins and the wait
    for their acknowledgments. *)
Definition hardware_reset (tl : timeline) (m : message) : M unit :=
  let reset_phal := dict_get (data m) "reset_hardware" (VBool true) in
  plugs ← gets factory_reset_plugs;
  if (truthy reset_phal && negb (length plugs =? 0)%nat)%bool then
    bus_on "system.factory.reset.phal.complete";;
    emit (forward m "system.factory.reset.phal" (Some (data m)));;
    plugs ← gets factory_reset_plugs;
    let r := event_wait tl plugs no_acks in
    modify (set_plugs (plugs_after r));;
    modify (record (EWait (elapsed r) (is_set r)));;
    bus_remove "system.factory.reset.phal.complete"
  else ret tt.

(** Lines 182-196 *)
Definition run_script (m : message) : M unit :=
  when (truthy (dict_get (data m) "script" (VBool true)))
       (let script := expanduser os (reset_script cfg) in
        b ← os_path_isfile script;
        when b
             (if use_external_factory_reset then
                emit (Message "ovos.shell.exec.factory.reset"
                              {[ "script" := VStr script ]} ∅)
              else
                shell script;;
                emit (forward m "system.factory.reset.complete" None))).

(** Lines 198-200 *)
Definition request_reboot (m : message) : M unit :=
  when (truthy (dict_get (data m) "reboot" (VBool true)))
       (emit (forward m "system.reboot" None)).

(** [handle_factory_reset_request], lines 105-200 *)
Definition handle_factory_reset_request (tl : timeline) (m : message) : M unit :=
  emit (forward m "system.factory.reset.start" None);;
  emit (forward m "system.factory.reset.ping" None);;
  wipe_stores (data m);;
  hardware_reset tl m;;
  run_script m;;
  request_reboot m.

Definition legacy_keys : list string :=
  ["reset_hardware"; "wipe_cache"; "wipe_config"; "wipe_data"; "wipe_logs"].

(** [handle_reset_register], lines 91-103; [tl] is what the bus delivers
    should the deprecated branch start a reset. *)
Definition handle_reset_register (tl : timeline) (m : message) : M unit :=
  if negb (truthy (dict_get (data m) "skill_id" VNone)) then
    when (existsb (has_key (data m)) legacy_keys)
         (handle_factory_reset_request tl m)
  else
    sid ← getitem (data m) "skill_id";
    plugs ← gets factory_reset_plugs;
    modify (set_plugs (append_if_absent sid plugs)).

(** [handle_ssh_enable_request], lines 202-210 *)
Definition handle_ssh_enable_request (m : message) : M unit :=
  shell ("systemctl enable " ++ ssh_service cfg);;
  shell ("systemctl start " ++ ssh_service cfg);;
  when (truthy (dict_get (data m) "display" (VBool true)))
       (gui_set "status" "Enabled";;
        gui_set "label" "SSH Enabled";;
        gui_show_page (page "Status.qml") false).

(** [handle_ssh_disable_request], lines 212-220 *)
Definition handle_ssh_disable_request (m : message) : M unit :=
  shell ("systemctl stop " ++ ssh_service cfg);;
  shell ("systemctl disable " ++ ssh_service cfg);;
  when (truthy (dict_get (data m) "display" (VBool true)))
       (gui_set "status" "Disabled";;
        gui_set "label" "SSH Disabled";;
        gui_show_page (page "Status.qml") false).

(** [message.reply(msg_type, data)] *)
Definition reply (m : message) (ty : string) (d : dict) : message :=
  Message ty d (reply_context os (context m)).

(** [handle_ntp_sync_request], lines 222-245 *)
Definition handle_ntp_sync_request (m : message) : M unit :=
  (if check_service_installed os "ntp" then
     shell "service ntp stop";;
     shell "ntpd -gq";;
     shell "service ntp start"
   else if check_service_installed os "systemd-timesyncd" then
     shell "systemctl stop systemd-timesyncd";;
     shell "systemctl start systemd-timesyncd"
   else ret tt);;
  if (check_service_active os "ntp"
      || check_service_active os "systemd-timesyncd")%bool then
    when (truthy (dict_get (data m) "display" (VBool false)))
         (gui_set "status" "Enabled";;
          gui_set "label" "Clock updated";;
          gui_show_page (page "Status.qml") false);;
    emit (reply m "system.ntp.sync.complete" ∅)
  else ret tt.

(** Lines 256-261 and 271-276: the configured script if it is a file,
    the [systemctl] command otherwise. *)
Definition script_or (configured fallback : string) : M unit :=
  let script := expanduser os configured in
  b ← os_path_isfile script;
  if (negb (String.eqb script "") && b)%bool then shell script
  else shell fallback.

(** [handle_reboot_request], lines 247-261 *)
Definition handle_reboot_request (m : message) : M unit :=
  when (truthy (dict_get (data m) "display" (VBool true)))
       (gui_show_page (page "Reboot.qml") true);;
  script_or (reboot_script cfg) "systemctl reboot -i".

(** [handle_shutdown_request], lines 263-276 *)
Definition handle_shutdown_request (m : message) : M unit :=
  when (truthy (dict_get (data m) "display" (VBool true)))
       (gui_show_page (page "Shutdown.qml") true);;
  script_or (shutdown_script cfg) "systemctl poweroff -i".

(** [language_code.lower()]: only a [str] has the method. *)
Definition str_lower (v : value) : M string :=
  match v with
  | VStr s => ret (lower s)
  | _ => raise (AttributeError "lower")
  end.

(** [handle_configure_language_request], lines 278-298 *)
Definition handle_configure_language_request (m : message) : M unit :=
  let language_code := dict_get (data m) "language_code" (VStr "en_US") in
  home ← os_environ "HOME";
  write_file (home ++ "/.bash_profile")
             ("export LANG=" ++ py_str language_code ++ newline);;
  lowered ← str_lower language_code;
  let language_code := replace_char "_" "-" lowered in
  modify (record (ESetDefaultLang language_code));;
  modify (record (EUpdateConfig {[ "lang" := VStr language_code ]}));;
  when (truthy (dict_get (data m) "display" (VBool false)))
       (gui_set "status" "Enabled";;
        gui_set "label" ("Language changed to " ++ language_code);;
        gui_show_page (page "Status.qml") false);;
  emit (Message "system.configure.language.complete"
                {[ "lang" := VStr language_code ]} ∅).

(** [restart_service(service, sudo, user)] of [ovos_utils.system] *)
Definition restart_service (name : string) (sudo user : bool) : M unit :=
  modify (record (ERestartService name sudo user));;
  if restart_service_ok os name sudo user then ret tt
  else raise (CalledProcessError name).

(** [handle_mycroft_restart_request], lines 300-313; the value returned
    is [None], or [False] when both attempts fail. *)
Definition handle_mycroft_restart_request (m : message) : M value :=
  when (truthy (dict_get (data m) "display" (VBool true)))
       (gui_show_page (page "Restart.qml") true);;
  let service := core_service_name cfg in
  try_except
    (restart_service service false true;; mret VNone)
    (try_except
       (restart_service service true false;; mret VNone)
       (mret (VBool false))).


End SystemEvents.

(** ** A concrete installation, used to run the handlers *)

Module Example.

Definition home : string := "/home/ovos".

Definition loc : locations := {|
  OLD_IDENTITY_FILE := home ++ "/.mycroft/identity/identity2.json";
  IDENTITY_FILE := home ++ "/.config/mycroft/identity/identity2.json";
  xdg_cache_home := home ++ "/.cache";
  xdg_data_home := home ++ "/.local/share";
  xdg_state_home := home ++ "/.local/state";
  get_xdg_base := "mycroft";
  JsonStorageXDG_path :=
    fun j => home ++ "/.cache/json_database/" ++ j ++ ".json";
  JsonDatabaseXDG_path :=
    fun j => home ++ "/.local/share/json_database/" ++ j ++ ".jsondb";
  OLD_USER_CONFIG := home ++ "/.mycroft/mycroft.conf";
  USER_CONFIG := home ++ "/.config/mycroft/mycroft.conf";
  WEB_CONFIG_CACHE := home ++ "/.config/mycroft/web_cache.json";
  plugin_dir := "/opt/ovos/ovos_PHAL_plugin_system"
|}.

Definition os : host := {|
  expanduser := fun s => s;
  is_process_running := fun _ => false;
  check_service_installed := fun s => String.eqb s "systemd-timesyncd";
  check_service_active := fun s => String.eqb s "systemd-timesyncd";
  restart_service_ok := fun _ sudo _ => sudo;
  reply_context := fun c => c
|}.

Definition cfg : plugin_config := {|
  reset_script := "/opt/ovos/factory_reset.sh";
  reboot_script := "";
  shutdown_script := "";
  external_requested := None;
  core_service_name := "ovos.service";
  ssh_service := "sshd.service"
|}.

Definition disk : filesystem :=
  list_to_map
    [ (IDENTITY_FILE loc, File "{}");
      (USER_CONFIG loc, File "{}");
      (WEB_CONFIG_CACHE loc, File "{}");
      (cache_dir loc, Dir);
      (cache_dir loc ++ "/tts/hello.wav", File "RIFF");
      (data_dir loc, Dir);
      (data_dir loc ++ "/skills", Dir);
      (JsonStorageXDG_path loc "ovos_oauth", File "{}");
      (JsonDatabaseXDG_path loc "ovos_wakewords", File "{}");
      (state_dir loc, Dir);
      (state_dir loc ++ "/logs/skills.log", File "log");
      (reset_script cfg, File "#!/bin/sh");
      (home ++ "/.bash_profile", File "export EDITOR=vi") ].

(** No participant has registered yet. *)
Definition fresh : world := World disk {[ "HOME" := home ]} [] [].

(** Two participants, [A] and [B], have registered. *)
Definition two_plugs : world :=
  World disk {[ "HOME" := home ]} [VStr "A"; VStr "B"] [].

Definition request (ty : string) (d : dict) : message := Message ty d ∅.

Definition ack (sid : string) : arrival := Ack {[ "skill_id" := VStr sid ]}.

Definition registration (sid : string) : message :=
  request "system.factory.reset.register" {[ "skill_id" := VStr sid ]}.

End Example.

(** ** What a stretch of deliveries amounts to *)

(** The identifiers carried by the acknowledgments among [tl]. *)
Definition acked (tl : timeline) : list value :=
  omap (fun ta => match ta.2 with
                  | Ack d => d !! "skill_id"
                  | Register _ => None
                  end) tl.

(** The participants known once the registrations among [tl] are in. *)
Definition known (plugs : list value) (tl : timeline) : list value :=
  foldl (fun p ta => match ta.2 with
                     | Register d => register_plug d p
                     | Ack _ => p
                     end) plugs tl.

(** Every participant known after [tl] has been seen in an acknowledgment
    of [tl]. *)
Definition all_acked (plugs : list value) (tl : timeline) : bool :=
  forallb (fun s => py_in s (acked tl)) (known plugs tl).

(** All of [tl] is delivered before the deadline. *)
Definition before_deadline (tl : timeline) : Prop :=
  Forall (fun ta => ta.1 < wait_timeout) tl.

(** The effects a run of [c] from [w] adds to the trace. *)
Definition new_effects {A} (c : M A) (w : world) : list effect :=
  drop (List.length (trace w)) (trace (c w).2).

(** The effect is the emission of a message of type [ty]. *)
Definition is_emit_of (ty : string) (e : effect) : bool :=
  match e with EEmit m => String.eqb (msg_type m) ty | _ => false end.

(** The effect belongs to the wait: the listener put on or taken off the
    bus, or [event.wait] itself. *)
Definition is_wait (e : effect) : bool :=
  match e with EWait _ _ | EBusOn _ | EBusRemove _ => true | _ => false end.

(** ** The vocabulary of the properties *)

(** [c] never raises. *)
Definition total {A} (c : M A) : Prop := forall w, exists a, (c w).1 = Ok a.

(** [R] relates the world before a run of [c] to the world after it. *)
Definition stable (R : relation world) {A} (c : M A) : Prop :=
  forall w, R w (c w).2.

(** The participant list is the same before and after. *)
Definition same_plugs : relation world :=
  fun w w' => factory_reset_plugs w' = factory_reset_plugs w.

(** The delivery is an acknowledgment, not a registration. *)
Definition is_ack (ta : Z * arrival) : Prop :=
  match ta.2 with Ack _ => True | Register _ => False end.

(** Between [w] and [w'] paths have only been deleted, each of them
    [allowed], and a directory has gone only with all that was below it. *)
Definition wiped (allowed : string -> Prop) : relation world :=
  fun w w' =>
    (forall q, fs w' !! q = fs w !! q \/ (fs w' !! q = None /\ allowed q))
    /\ (forall d q, is_dir (fs w) d = true -> is_dir (fs w') d = false ->
                    is_under d q = true -> fs w' !! q = None).

(** The three configuration files of lines 153-158. *)
Definition config_files (loc : locations) : list string :=
  [OLD_USER_CONFIG loc; USER_CONFIG loc; WEB_CONFIG_CACHE loc].

(** The named store files of lines 128-143. *)
Definition store_files (loc : locations) : list string :=
  (JsonStorageXDG_path loc <$> json_storages)
    ++ (JsonDatabaseXDG_path loc <$> json_databases).

(** The flag [k] of the request is true; a flag that is absent is. *)
Definition flag (d : dict) (k : string) : Prop :=
  truthy (dict_get d k (VBool true)) = true.

(** The paths a reset with payload [d] may delete. *)
Definition wipe_target (loc : locations) (d : dict) (q : string) : Prop :=
  q = OLD_IDENTITY_FILE loc \/ q = IDENTITY_FILE loc
  \/ (flag d "wipe_cache" /\ is_under (cache_dir loc) q = true)
  \/ (flag d "wipe_data"
      /\ (is_under (data_dir loc) q = true \/ q ∈ store_files loc))
  \/ (flag d "wipe_logs" /\ is_under (state_dir loc) q = true)
  \/ (flag d "wipe_configs" /\ q ∈ config_files loc).

(** The configuration files are neither identity nor store files and lie
    outside the cache, data and state directories. *)
Definition configs_apart (loc : locations) : Prop :=
  forall c, c ∈ config_files loc ->
    c <> OLD_IDENTITY_FILE loc /\ c <> IDENTITY_FILE loc
    /\ is_under (cache_dir loc) c = false
    /\ is_under (data_dir loc) c = false
    /\ is_under (state_dir loc) c = false
    /\ c ∉ store_files loc.

(** Between [w] and [w'] the trace has grown by effects that satisfy [P]. *)
Definition extends (P : effect -> Prop) : relation world :=
  fun w w' => exists l, trace w' = (trace w ++ l)%list /\ Forall P l.

(** The condition of line 163 is false. *)
Definition hardware_skipped (m : message) (w : world) : Prop :=
  factory_reset_plugs w = []
  \/ truthy (dict_get (data m) "reset_hardware" (VBool true)) = false.

(** Neither the broadcast to the plugins nor anything of the wait. *)
Definition not_hardware (e : effect) : Prop :=
  is_emit_of "system.factory.reset.phal" e = false /\ is_wait e = false.

(** Every participant of [plugs] is among the acknowledged [acks]:
    the test of line 173. *)
Definition covered (acks plugs : list value) : bool :=
  forallb (fun s => py_in s acks) plugs.

(** The wait is released by the acknowledgment at [t], the first delivery
    after which every known participant has acknowledged. *)
Definition released_by (plugs : list value) (seen rest : timeline)
           (r : wait_result) : Prop :=
  exists (pre : timeline) t d (post : timeline),
    rest = (pre ++ (t, Ack d) :: post)%list
    /\ before_deadline (pre ++ [(t, Ack d)])
    /\ all_acked plugs (seen ++ pre ++ [(t, Ack d)]) = true
    /\ (forall pre1 pre2 : timeline,
          pre = (pre1 ++ pre2)%list -> all_acked plugs (seen ++ pre1) = false)
    /\ elapsed r = Z.max 0 t.

(** At no moment before the deadline has every known participant
    acknowledged. *)
Definition never_released (plugs : list value) (seen rest : timeline) : Prop :=
  forall pre post : timeline,
    rest = (pre ++ post)%list -> before_deadline pre ->
    all_acked plugs (seen ++ pre) = false.

(** What [event.wait] gave against the deliveries [rest], [seen] being
    what was delivered before them. *)
Definition wait_outcome (plugs : list value) (seen rest : timeline)
           (r : wait_result) : Prop :=
  if is_set r then released_by plugs seen rest r
  else elapsed r = wait_timeout /\ never_released plugs seen rest.

(** Lines 106-160: the announcements and the wipes. *)
Definition announce_and_wipe (loc : locations) (m : message) : M unit :=
  emit (forward m "system.factory.reset.start" None);;
  emit (forward m "system.factory.reset.ping" None);;
  wipe_stores loc (data m).


(** [f"{os.environ['HOME']}/.bash_profile"] *)
Definition profile (home : string) : string := home ++ "/.bash_profile".


(** ** The validators (lines 26-39 and 338-342) *)

(** The configuration [Configuration()] is a dictionary whose entries are
    values or dictionaries in turn. *)
#[local] Set Warnings "-register-all".
Inductive conf : Type :=
  | CLeaf (v : value)
  | CDict (entries : gmap string conf).
#[local] Set Warnings "register-all".

(** [bool(c)] *)
Definition conf_truthy (c : conf) : bool :=
  match c with
  | CLeaf v => truthy v
  | CDict entries => negb (size entries =? 0)%nat
  end.

(** [c.get(k, dflt)]: only a dictionary has the method. *)
Definition conf_get (c : conf) (k : string) (dflt : conf) : result conf :=
  match c with
  | CDict entries => Ok (default dflt (entries !! k))
  | CLeaf _ => Raise (AttributeError "get")
  end.

Definition and_then {A B} (r : result A) (k : A -> result B) : result B :=
  match r with
  | Ok a => k a
  | Raise e => Raise e
  end.

(** [SystemEventsValidator.validate], lines 28-39 *)
Definition validate (configuration : gmap string conf) : result bool :=
  and_then (conf_get (CDict configuration) "PHAL" (CDict ∅)) (fun phal =>
  and_then (conf_get phal "admin" (CDict ∅)) (fun cfg =>
  and_then (conf_get cfg "ovos-PHAL-plugin-system" (CDict ∅)) (fun plug =>
  and_then (conf_get plug "enabled" (CLeaf VNone)) (fun enabled =>
  if conf_truthy enabled then Ok false else Ok true)))).

(** [SystemEventsAdminValidator.validate], lines 340-342 *)
Definition admin_validate (configuration : gmap string conf) : result bool :=
  Ok true.

(** ** Construction and shutdown (lines 45-71 and 322-336) *)

(** The attributes [__init__] computes from its [config] argument. *)
Record attributes : Type := Attributes {
  attr_core_service_name : value;
  attr_ssh_service : value;
  attr_use_root : value
}.

(** [a or b] *)
Definition py_or (a b : value) : value := if truthy a then a else b.

(** [config.get(k)] on the argument [config], which is [None] by default. *)
Definition config_get (config : option dict) (k : string) (dflt : value)
  : M value :=
  match config with
  | Some c => mret (dict_get c k dflt)
  | None => raise (AttributeError "get")
  end.

(** [SystemEvents.__init__], lines 45-71. The constructor of the base class
    and of [GUIInterface] are taken to return without an effect on the
    state modelled. *)
Definition init (config : option dict) : M attributes :=
  bus_on "system.ntp.sync";;
  bus_on "system.ssh.status";;
  bus_on "system.ssh.enable";;
  bus_on "system.ssh.disable";;
  bus_on "system.reboot";;
  bus_on "system.shutdown";;
  bus_on "system.factory.reset";;
  bus_on "system.factory.reset.register";;
  bus_on "system.configure.language";;
  bus_on "system.mycroft.service.restart";;
  core ← config_get config "core_service" VNone;
  ssh ← config_get config "ssh_service" VNone;
  use_root ← config_get config "sudo" (VBool true);
  modify (set_plugs []);;
  emit (Message "system.factory.reset.ping" ∅ ∅);;
  mret (Attributes (py_or core (VStr "ovos.service"))
                   (py_or ssh (VStr "sshd.service"))
                   use_root).

(** [SystemEvents.shutdown], lines 322-336, up to the call of the base
    class. *)
Definition shutdown : M unit :=
  bus_remove "system.ntp.sync";;
  bus_remove "system.ssh.enable";;
  bus_remove "system.ssh.disable";;
  bus_remove "system.reboot";;
  bus_remove "system.shutdown";;
  bus_remove "system.factory.reset";;
  bus_remove "system.factory.reset.register";;
  bus_remove "system.configure.language";;
  bus_remove "system.mycroft.service.restart".

(** ** More vocabulary *)

(** The entry of the configuration at the end of a path of keys, if every
    step of the path is there and leads through dictionaries. *)
Fixpoint conf_path (c : conf) (path : list string) : option conf :=
  match path with
  | [] => Some c
  | k :: path' =>
      match c with
      | CDict entries =>
          match entries !! k with
          | Some c' => conf_path c' path'
          | None => None
          end
      | CLeaf _ => None
      end
  end.

Definition admin_enabled_path : list string :=
  ["PHAL"; "admin"; "ovos-PHAL-plugin-system"; "enabled"].

(** The first [t] is taken out of [l]. *)
Fixpoint remove_first (t : string) (l : list string) : list string :=
  match l with
  | [] => []
  | x :: l' => if String.eqb x t then l' else x :: remove_first t l'
  end.

(** The topics that have a listener of the plugin on the bus after the
    effects [l], starting from the topics [start]. *)
Definition listeners_from (start : list string) (l : list effect) : list string :=
  foldl (fun topics e => match e with
                         | EBusOn t => (topics ++ [t])%list
                         | EBusRemove t => remove_first t topics
                         | _ => topics
                         end) start l.

Definition listeners (l : list effect) : list string := listeners_from [] l.

(** How many messages of type [ty] the effects [l] emit. *)
Definition emitted (ty : string) (l : list effect) : nat :=
  List.length (List.filter (is_emit_of ty) l).

(** The effect is a call of the GUI. *)
Definition is_gui (e : effect) : bool :=
  match e with EGuiSet _ _ | EGuiShow _ _ => true | _ => false end.

(** The shell commands among the effects [l], in order. *)
Definition shell_commands (l : list effect) : list string :=
  omap (fun e => match e with EShell cmd => Some cmd | _ => None end) l.

(** The attempts to restart a service among the effects [l], in order, as
    pairs of the [sudo] and [user] arguments. *)
Definition restart_attempts (l : list effect) : list (bool * bool) :=
  omap (fun e => match e with
                 | ERestartService _ sudo user => Some (sudo, user)
                 | _ => None
                 end) l.

(** The filesystem is the same before and after. *)
Definition same_fs : relation world := fun w w' => fs w' = fs w.

(** The participant list has only grown at its end. *)
Definition plugs_grow : relation world :=
  fun w w' => factory_reset_plugs w `prefix_of` factory_reset_plugs w'.

(** No two entries of [l] are equal for Python. *)
Fixpoint py_nodup (l : list value) : bool :=
  match l with
  | [] => true
  | x :: l' => (negb (py_in x l') && py_nodup l')%bool
  end.

(** The participant list holds no identifier twice and none that is false. *)
Definition registry_ok (l : list value) : Prop :=
  py_nodup l = true /\ forallb truthy l = true.

(** The effects of the three last phases of the factory reset. *)
Definition hardware_effects (tl : timeline) (m : message) (plugs : list value)
  : list effect :=
  if (truthy (dict_get (data m) "reset_hardware" (VBool true))
      && negb (List.length plugs =? 0)%nat)%bool
  then let r := event_wait tl plugs no_acks in
       [EBusOn "system.factory.reset.phal.complete";
        EEmit (forward m "system.factory.reset.phal" (Some (data m)));
        EWait (elapsed r) (is_set r);
        EBusRemove "system.factory.reset.phal.complete"]
  else [].

(** The reset script is to be run: the request asks for it and the
    configured path is a file of [f]. *)
Definition script_due (os : host) (cfg : plugin_config) (m : message)
           (f : filesystem) : bool :=
  (truthy (dict_get (data m) "script" (VBool true))
   && is_file f (expanduser os (reset_script cfg)))%bool.

Definition script_effects (os : host) (cfg : plugin_config) (m : message)
           (f : filesystem) : list effect :=
  if script_due os cfg m f then
    if use_external_factory_reset os cfg
    then [EEmit (Message "ovos.shell.exec.factory.reset"
                         {[ "script" := VStr (expanduser os (reset_script cfg)) ]}
                         ∅)]
    else [EShell (expanduser os (reset_script cfg));
          EEmit (forward m "system.factory.reset.complete" None)]
  else [].

Definition reboot_effects (m : message) : list effect :=
  if truthy (dict_get (data m) "reboot" (VBool true))
  then [EEmit (forward m "system.reboot" None)]
  else [].

(** Every target of a reset with payload [d] is gone from [f]. *)
Definition wiped_out (loc : locations) (d : dict) (f : filesystem) : Prop :=
  is_file f (OLD_IDENTITY_FILE loc) = false
  /\ is_file f (IDENTITY_FILE loc) = false
  /\ (flag d "wipe_cache" -> is_dir f (cache_dir loc) = false)
  /\ (flag d "wipe_data" ->
      is_dir f (data_dir loc) = false
      /\ forall p, p ∈ store_files loc -> is_file f p = false)
  /\ (flag d "wipe_logs" -> is_dir f (state_dir loc) = false)
  /\ (flag d "wipe_configs" ->
      forall c, c ∈ config_files loc -> is_file f c = false).



(** The topics [__init__] subscribes to, in the order of the source. *)
Definition init_topics : list string :=
  ["system.ntp.sync"; "system.ssh.status"; "system.ssh.enable";
   "system.ssh.disable"; "system.reboot"; "system.shutdown";
   "system.factory.reset"; "system.factory.reset.register";
   "system.configure.language"; "system.mycroft.service.restart"].

(** The topics [shutdown] unsubscribes from, in the order of the source. *)
Definition shutdown_topics : list string :=
  ["system.ntp.sync"; "system.ssh.enable"; "system.ssh.disable";
   "system.reboot"; "system.shutdown"; "system.factory.reset";
   "system.factory.reset.register"; "system.configure.language";
   "system.mycroft.service.restart"].



(** * Properties *)

(** ** Python equality on payload values *)

Lemma py_eq_refl a : py_eq a a = true.
Proof.
  destruct a as [|[]| |]; simpl; auto using Z.eqb_refl, String.eqb_refl.
Qed.

Lemma py_eq_sym a b : py_eq a b = py_eq b a.
Proof.
  destruct a as [|[]| |], b as [|[]| |]; simpl;
    auto using Z.eqb_sym, String.eqb_sym.
Qed.

(** Two values are equal for Python when they agree once booleans are read
    as the integers they are. *)
Lemma py_eq_as_int a b :
  py_eq a b = true <->
  match as_int a, as_int b with
  | Some m, Some n => m = n
  | None, None => a = b
  | _, _ => False
  end.
Proof.
  destruct a as [|[]| |], b as [|[]| |]; cbv [py_eq as_int];
    rewrite ?Z.eqb_eq, ?String.eqb_eq; split; (congruence || tauto).
Qed.

Lemma py_eq_trans a b c : py_eq a b = true -> py_eq b c = true -> py_eq a c = true.
Proof.
  rewrite !py_eq_as_int.
  destruct (as_int a), (as_int b), (as_int c); try tauto; congruence.
Qed.

Lemma py_in_app x l1 l2 : py_in x (l1 ++ l2) = (py_in x l1 || py_in x l2)%bool.
Proof. unfold py_in. apply existsb_app. Qed.

Lemma py_in_true x l : py_in x l = true <-> exists y, y ∈ l /\ py_eq y x = true.
Proof.
  unfold py_in. rewrite existsb_exists.
  split; intros (y & Hy & E); exists y; split; auto; by apply list_elem_of_In.
Qed.

Lemma py_in_eq x y l : py_eq x y = true -> py_in x l = py_in y l.
Proof.
  intros E. unfold py_in. induction l as [|z l IH]; simpl; [done|].
  rewrite IH. f_equal.
  destruct (py_eq z x) eqn:Ex, (py_eq z y) eqn:Ey; try done.
  - rewrite (py_eq_trans z x y) in Ey; auto.
  - rewrite py_eq_sym in E. rewrite (py_eq_trans z y x) in Ex; auto.
Qed.

Lemma py_in_append_if_absent x sid l :
  py_in x (append_if_absent sid l) = (py_in x l || py_eq sid x)%bool.
Proof.
  unfold append_if_absent. destruct (py_in sid l) eqn:E.
  - destruct (py_eq sid x) eqn:Ex; [|by rewrite orb_false_r].
    rewrite <- (py_in_eq sid x l Ex), E. done.
  - rewrite py_in_app. simpl. by rewrite orb_false_r.
Qed.

Lemma append_if_absent_idem sid l :
  append_if_absent sid (append_if_absent sid l) = append_if_absent sid l.
Proof.
  unfold append_if_absent at 1.
  by rewrite py_in_append_if_absent, py_eq_refl, orb_true_r.
Qed.

(** ** Running computations *)

Ltac run :=
  unfold mbind, M_bind, bind, mret, M_ret, ret, raise, gets, modify, when; simpl.

Lemma bind_run {A B} (c : M A) (k : A -> M B) w :
  (c ≫= k) w = match c w with
               | (Ok a, w') => k a w'
               | (Raise e, w') => (Raise e, w')
               end.
Proof. reflexivity. Qed.

Lemma total_ret {A} (a : A) : total (mret a).
Proof. intros w. by exists a. Qed.

Lemma total_bind {A B} (c : M A) (k : A -> M B) :
  total c -> (forall a, total (k a)) -> total (c ≫= k).
Proof.
  intros Hc Hk w. rewrite bind_run.
  destruct (Hc w) as [a Ha]. destruct (c w) as [[a'|e] w']; simpl in Ha; [|done].
  apply Hk.
Qed.

Lemma total_gets {A} (f : world -> A) : total (gets f).
Proof. intros w. by eexists. Qed.

Lemma total_modify f : total (modify f).
Proof. intros w. by eexists. Qed.

Lemma total_when b c : total c -> total (when b c).
Proof. destruct b; simpl; [done|]. intros _. apply total_ret. Qed.

Lemma total_for_each {A} (l : list A) body :
  (forall x, total (body x)) -> total (for_each l body).
Proof.
  intros Hb. induction l; simpl; [apply total_ret|].
  apply total_bind; auto.
Qed.

Section Stable.
Context (R : relation world) `{!PreOrder R}.

Lemma stable_ret {A} (a : A) : stable R (mret a).
Proof. intros w. simpl. reflexivity. Qed.

Lemma stable_bind {A B} (c : M A) (k : A -> M B) :
  stable R c -> (forall a, stable R (k a)) -> stable R (c ≫= k).
Proof.
  intros Hc Hk w. rewrite bind_run. specialize (Hc w).
  destruct (c w) as [[a|e] w']; simpl in *; [|done].
  etrans; [exact Hc|apply Hk].
Qed.

Lemma stable_gets {A} (f : world -> A) : stable R (gets f).
Proof. intros w. simpl. reflexivity. Qed.

Lemma stable_when b c : stable R c -> stable R (when b c).
Proof. destruct b; simpl; [done|]. intros _. apply stable_ret. Qed.

Lemma stable_for_each {A} (l : list A) body :
  (forall x, stable R (body x)) -> stable R (for_each l body).
Proof.
  intros Hb. induction l; simpl; [apply stable_ret|].
  apply stable_bind; auto.
Qed.

Lemma stable_record e :
  (forall w, R w (record e w)) -> stable R (modify (record e)).
Proof. intros H w. apply H. Qed.
End Stable.

(** ** Registration *)

Section Registry.
Context (loc : locations) (os : host) (cfg : plugin_config).

Lemma register_with_id tl m sid w :
  data m !! "skill_id" = Some sid -> truthy sid = true ->
  handle_reset_register loc os cfg tl m w
  = (Ok tt, set_plugs (append_if_absent sid (factory_reset_plugs w)) w).
Proof.
  intros Hd Ht. unfold handle_reset_register, dict_get, getitem.
  rewrite Hd. simpl. rewrite Ht. reflexivity.
Qed.

(** C3. Delivering a registration that carries the identifier [sid] any
    number of times, at least once, leaves the plugin as one delivery
    does; delivered twice to a plugin without participants, it leaves
    exactly one participant. *)
Theorem register_idempotent tl m sid w n :
  data m !! "skill_id" = Some sid -> truthy sid = true ->
  let deliver := fun w => (handle_reset_register loc os cfg tl m w).2 in
  Nat.iter (S n) deliver w = deliver w
  /\ (factory_reset_plugs w = [] ->
      factory_reset_plugs (deliver (deliver w)) = [sid]).
Proof.
  intros Hd Ht deliver.
  assert (Hrun : forall w', deliver w'
            = set_plugs (append_if_absent sid (factory_reset_plugs w')) w').
  { intros w'. unfold deliver. by rewrite (register_with_id tl m sid w'). }
  assert (Hidem : forall w', deliver (deliver w') = deliver w').
  { intros w'. rewrite !Hrun. destruct w'; unfold set_plugs; simpl.
    by rewrite append_if_absent_idem. }
  split.
  - induction n as [|n IH]; [done|].
    change (deliver (Nat.iter (S n) deliver w) = deliver w).
    by rewrite IH, Hidem.
  - intros Hempty. rewrite Hidem, Hrun. simpl. by rewrite Hempty.
Qed.

End Registry.

Lemma register_idempotent_witness :
  data (Example.registration "A") !! "skill_id" = Some (VStr "A")
  /\ truthy (VStr "A") = true
  /\ let deliver := fun w =>
         (handle_reset_register Example.loc Example.os Example.cfg []
                                (Example.registration "A") w).2 in
     Nat.iter 3 deliver Example.fresh = deliver Example.fresh
     /\ (factory_reset_plugs Example.fresh = [] ->
         factory_reset_plugs (deliver (deliver Example.fresh)) = [VStr "A"]).
Proof.
  assert (H1 : data (Example.registration "A") !! "skill_id" = Some (VStr "A"))
    by reflexivity.
  assert (H2 : truthy (VStr "A") = true) by reflexivity.
  split; [exact H1|]. split; [exact H2|].
  exact (register_idempotent Example.loc Example.os Example.cfg []
           (Example.registration "A") (VStr "A") Example.fresh 2 H1 H2).
Defined.

(** ** Which handlers write the participant list *)

#[local] Instance same_plugs_preorder : PreOrder same_plugs.
Proof. split; unfold same_plugs; [done|]. intros ???; congruence. Qed.

Ltac stable_step R :=
  first [ apply (stable_ret R)
        | apply (stable_gets R)
        | apply (stable_when R)
        | apply (stable_for_each R); intros ?
        | apply (stable_bind R); [|intros ?] ].

Ltac same_plugs_prim :=
  let w := fresh "w" in
  intros w;
  unfold os_remove, write_file, os_environ, shutil_rmtree, emit, bus_on,
    bus_remove, shell, gui_set, gui_show_page, modify, raise, same_plugs;
  simpl; repeat case_match; reflexivity.

Lemma event_wait_known (tl : timeline) plugs st :
  exists pre post : timeline,
    tl = (pre ++ post)%list
    /\ plugs_after (event_wait tl plugs st) = known plugs pre.
Proof.
  revert plugs st. induction tl as [|[t a] tl IH]; intros plugs st.
  { by exists [], []. }
  simpl. case_bool_decide; [by exists [], ((t, a) :: tl)|].
  destruct a as [d|d].
  - destruct (on_done plugs st d) as [st'|e].
    + destruct (event st').
      * by exists [(t, Ack d)], tl.
      * destruct (IH plugs st') as (pre & post & -> & ->).
        by exists ((t, Ack d) :: pre), post.
    + destruct (IH plugs st) as (pre & post & -> & ->).
      by exists ((t, Ack d) :: pre), post.
  - destruct (IH (register_plug d plugs) st) as (pre & post & -> & ->).
    by exists ((t, Register d) :: pre), post.
Qed.

Lemma known_acks_only plugs tl : Forall is_ack tl -> known plugs tl = plugs.
Proof.
  induction 1 as [|[t [d|d]] tl Ha _ IH]; simpl; try done.
Qed.

Section ResetKeepsPlugs.
Context (loc : locations) (os : host) (cfg : plugin_config).

Lemma wipe_stores_same_plugs d : stable same_plugs (wipe_stores loc d).
Proof.
  unfold wipe_stores, wipe_identity, wipe_cache, wipe_data, wipe_logs,
    wipe_configs, remove_if_file, rmtree_if_dir, os_path_isfile,
    os_path_isdir.
  repeat stable_step same_plugs; same_plugs_prim.
Qed.

Lemma run_script_same_plugs m : stable same_plugs (run_script os cfg m).
Proof.
  unfold run_script, os_path_isfile.
  destruct (use_external_factory_reset os cfg);
    repeat stable_step same_plugs; same_plugs_prim.
Qed.

Lemma request_reboot_same_plugs m : stable same_plugs (request_reboot m).
Proof. unfold request_reboot. repeat stable_step same_plugs; same_plugs_prim. Qed.

Lemma hardware_reset_plugs tl m w :
  Forall is_ack tl -> same_plugs w (hardware_reset tl m w).2.
Proof.
  intros Hacks. unfold hardware_reset, same_plugs. run.
  case_match; simpl; [|done].
  destruct (event_wait_known tl (factory_reset_plugs w) no_acks)
    as (pre & post & Htl & ->).
  apply known_acks_only. rewrite Htl in Hacks.
  by apply Forall_app in Hacks as [? _].
Qed.

Lemma factory_reset_same_plugs tl m w :
  Forall is_ack tl ->
  same_plugs w (handle_factory_reset_request loc os cfg tl m w).2.
Proof.
  intros Hacks. revert w. unfold handle_factory_reset_request.
  apply (stable_bind same_plugs); [same_plugs_prim|intros _].
  apply (stable_bind same_plugs); [same_plugs_prim|intros _].
  apply (stable_bind same_plugs); [apply wipe_stores_same_plugs|intros _].
  apply (stable_bind same_plugs);
    [intros w; by apply hardware_reset_plugs|intros _].
  apply (stable_bind same_plugs); [apply run_script_same_plugs|intros _].
  apply request_reboot_same_plugs.
Qed.

End ResetKeepsPlugs.

Section LegacyRegistration.
Context (loc : locations) (os : host) (cfg : plugin_config).

(** C4, as amended. A registration whose [skill_id] is missing (or empty,
    null, zero or false) starts the factory reset on its payload only when
    the payload has one of the keys [reset_hardware], [wipe_cache],
    [wipe_config], [wipe_data], [wipe_logs]; without any of them the
    message is dropped and the world stays as it is.  Either way the
    message adds no participant: when no registration is delivered
    meanwhile, the participant list is the one from before. *)
Theorem register_without_id tl m w :
  truthy (dict_get (data m) "skill_id" VNone) = false ->
  handle_reset_register loc os cfg tl m w
  = (if existsb (has_key (data m)) legacy_keys
     then handle_factory_reset_request loc os cfg tl m w
     else (Ok tt, w))
  /\ (Forall is_ack tl ->
      factory_reset_plugs (handle_reset_register loc os cfg tl m w).2
      = factory_reset_plugs w).
Proof.
  intros Hid.
  assert (Hrun : handle_reset_register loc os cfg tl m w
                 = (if existsb (has_key (data m)) legacy_keys
                    then handle_factory_reset_request loc os cfg tl m w
                    else (Ok tt, w))).
  { unfold handle_reset_register. rewrite Hid. cbn [negb].
    by destruct (existsb (has_key (data m)) legacy_keys). }
  split; [exact Hrun|].
  intros Hacks. rewrite Hrun.
  destruct (existsb (has_key (data m)) legacy_keys); [|done].
  by apply factory_reset_same_plugs.
Qed.

End LegacyRegistration.

Lemma register_without_id_witness :
  let m := Example.request "system.factory.reset.register"
                           {[ "wipe_cache" := VBool true; "reboot" := VBool false ]} in
  let tl := [(1500, Example.ack "A")] in
  truthy (dict_get (data m) "skill_id" VNone) = false
  /\ Forall is_ack tl
  /\ handle_reset_register Example.loc Example.os Example.cfg tl m Example.two_plugs
     = (if existsb (has_key (data m)) legacy_keys
        then handle_factory_reset_request Example.loc Example.os Example.cfg tl m
                                          Example.two_plugs
        else (Ok tt, Example.two_plugs))
  /\ factory_reset_plugs
       (handle_reset_register Example.loc Example.os Example.cfg tl m
                              Example.two_plugs).2
     = factory_reset_plugs Example.two_plugs.
Proof.
  intros m tl.
  assert (H1 : truthy (dict_get (data m) "skill_id" VNone) = false)
    by (vm_compute; reflexivity).
  assert (H2 : Forall is_ack tl) by (repeat constructor).
  destruct (register_without_id Example.loc Example.os Example.cfg
              tl m Example.two_plugs H1) as [E P].
  split; [exact H1|]. split; [exact H2|]. split; [exact E|exact (P H2)].
Defined.

(** C4, as stated, fails: a registration with an empty payload has no
    [skill_id], yet no factory reset is run on it; the handler returns and
    nothing has changed, whereas the factory reset would have. *)
Lemma register_without_id_not_always_reset :
  let m := Example.request "system.factory.reset.register" ∅ in
  data m !! "skill_id" = None
  /\ handle_reset_register Example.loc Example.os Example.cfg [] m Example.two_plugs
     = (Ok tt, Example.two_plugs)
  /\ handle_factory_reset_request Example.loc Example.os Example.cfg [] m
                                  Example.two_plugs
     <> (Ok tt, Example.two_plugs).
Proof.
  intros m. split; [vm_compute; reflexivity|].
  split; [vm_cast_no_check (eq_refl (Ok tt, Example.two_plugs))|].
  assert (E : List.length
                (trace (handle_factory_reset_request Example.loc Example.os
                          Example.cfg [] m Example.two_plugs).2) = 9%nat)
    by (vm_compute; reflexivity).
  intros H. rewrite H in E. discriminate E.
Qed.

(** ** Paths *)

Lemma prefix_app (p q : string) :
  String.prefix p q = true <-> exists r, q = p ++ r.
Proof.
  revert q. induction p as [|c p IH]; intros [|c' q]; simpl.
  - split; [by exists ""|done].
  - split; [intros _; by exists (String c' q)|done].
  - split; [done|by intros [r ?]].
  - destruct (ascii_dec c c') as [->|Hne].
    + rewrite IH. split; intros [r Hr]; exists r.
      * change (String c' q = String c' (p ++ r)). congruence.
      * change (String c' q = String c' (p ++ r)) in Hr. congruence.
    + split; [done|]. intros [r Hr].
      change (String c' q = String c (p ++ r)) in Hr. congruence.
Qed.

Lemma string_app_assoc (a b c : string) : (a ++ b) ++ c = a ++ (b ++ c).
Proof.
  induction a as [|x a IH]; [done|].
  change (String x ((a ++ b) ++ c) = String x (a ++ (b ++ c))). congruence.
Qed.

Lemma is_under_spec p q :
  is_under p q = true <-> q = p \/ exists r, q = p ++ "/" ++ r.
Proof.
  unfold is_under. rewrite orb_true_iff, String.eqb_eq, prefix_app.
  split; (intros [E|[r E]]; [left|right; exists r]; try done).
  - by rewrite <- string_app_assoc.
  - by rewrite string_app_assoc.
Qed.

Lemma is_under_refl p : is_under p p = true.
Proof. apply is_under_spec. by left. Qed.

Lemma is_under_trans p d q :
  is_under p d = true -> is_under d q = true -> is_under p q = true.
Proof.
  rewrite !is_under_spec. intros [->|[r ->]] [->|[r' ->]]; eauto.
  right. exists (r ++ "/" ++ r'). by rewrite !string_app_assoc.
Qed.

(** ** What the reset may delete *)

Lemma is_dir_spec f p : is_dir f p = true <-> f !! p = Some Dir.
Proof. unfold is_dir. by repeat case_match. Qed.

Lemma is_file_spec f p : is_file f p = true <-> exists c, f !! p = Some (File c).
Proof. unfold is_file. repeat case_match; split; try done; eauto; by intros [? ?]. Qed.

Lemma rmtree_lookup p f q :
  is_dir f p = true ->
  rmtree p f !! q = if is_under p q then None else f !! q.
Proof.
  intros Hd. unfold rmtree. rewrite Hd.
  destruct (is_under p q) eqn:E.
  - apply map_lookup_filter_None. right. intros x _. simpl. congruence.
  - destruct (f !! q) as [x|] eqn:Hq.
    + by apply map_lookup_filter_Some.
    + apply map_lookup_filter_None. by left.
Qed.

Lemma wiped_same_fs allowed w w' : fs w' = fs w -> wiped allowed w w'.
Proof.
  intros E. split; [intros q; left; by rewrite E|].
  intros d q. rewrite E. congruence.
Qed.

#[local] Instance wiped_preorder allowed : PreOrder (wiped allowed).
Proof.
  split; [intros w; by apply wiped_same_fs|].
  intros w1 w2 w3 [H12 D12] [H23 D23]. split.
  - intros q. destruct (H23 q) as [E|[E ?]]; [|by right].
    rewrite E. apply H12.
  - intros d q Hd Hd3 Hq. destruct (is_dir (fs w2) d) eqn:Hd2.
    + by apply (D23 d).
    + pose proof (D12 d q Hd Hd2 Hq) as E.
      destruct (H23 q) as [E'|[E' _]]; congruence.
Qed.

Lemma wiped_mono (A B : string -> Prop) w w' :
  (forall q, A q -> B q) -> wiped A w w' -> wiped B w w'.
Proof.
  intros HAB [H D]. split; [|done].
  intros q. destruct (H q) as [?|[? ?]]; auto.
Qed.

Lemma wiped_not_dir allowed w w' d :
  wiped allowed w w' -> is_dir (fs w) d = false -> is_dir (fs w') d = false.
Proof.
  intros [H _] Hd. unfold is_dir in *.
  destruct (H d) as [->|[-> _]]; done.
Qed.

Lemma wiped_not_file allowed w w' p :
  wiped allowed w w' -> is_file (fs w) p = false -> is_file (fs w') p = false.
Proof.
  intros [H _] Hd. unfold is_file in *.
  destruct (H p) as [->|[-> _]]; done.
Qed.

Lemma remove_if_file_wiped (allowed : string -> Prop) p :
  allowed p -> stable (wiped allowed) (remove_if_file p).
Proof.
  intros Hp w. unfold remove_if_file, os_path_isfile, os_remove. run.
  destruct (is_file (fs w) p) eqn:Hf; simpl; [|reflexivity].
  apply is_file_spec in Hf as [c Hc]. rewrite Hc. unfold wiped. simpl. split.
  - intros q. destruct (decide (q = p)) as [->|Hne].
    + right. by rewrite lookup_delete_eq.
    + left. by rewrite lookup_delete_ne.
  - intros d q Hd Hd' _. exfalso.
    apply is_dir_spec in Hd. unfold is_dir in Hd'.
    rewrite lookup_delete_ne, Hd in Hd'; congruence.
Qed.

Lemma rmtree_if_dir_wiped (allowed : string -> Prop) p :
  (forall q, is_under p q = true -> allowed q) ->
  stable (wiped allowed) (rmtree_if_dir p).
Proof.
  intros Hp w. unfold rmtree_if_dir, os_path_isdir, shutil_rmtree. run.
  destruct (is_dir (fs w) p) eqn:Hf; simpl; [|reflexivity].
  unfold wiped. simpl. split.
  - intros q. rewrite rmtree_lookup by done.
    destruct (is_under p q) eqn:E; auto.
  - intros d q Hd Hd' Hq. rewrite rmtree_lookup by done.
    unfold is_dir in Hd'. rewrite rmtree_lookup in Hd' by done.
    destruct (is_under p d) eqn:E.
    + by rewrite (is_under_trans p d q).
    + apply is_dir_spec in Hd. by rewrite Hd in Hd'.
Qed.

Lemma remove_if_file_gone p w : is_file (fs (remove_if_file p w).2) p = false.
Proof.
  unfold remove_if_file, os_path_isfile, os_remove. run.
  destruct (is_file (fs w) p) eqn:Hf; simpl; [|done].
  apply is_file_spec in Hf as [c Hc]. rewrite Hc. simpl.
  unfold is_file. by rewrite lookup_delete_eq.
Qed.

Lemma rmtree_if_dir_gone p w : is_dir (fs (rmtree_if_dir p w).2) p = false.
Proof.
  unfold rmtree_if_dir, os_path_isdir, shutil_rmtree. run.
  destruct (is_dir (fs w) p) eqn:Hf; simpl; [|done].
  unfold is_dir. by rewrite rmtree_lookup, is_under_refl.
Qed.

(** ** Handlers that cannot raise *)

Lemma remove_if_file_total p : total (remove_if_file p).
Proof.
  intros w. unfold remove_if_file, os_path_isfile, os_remove. run.
  destruct (is_file (fs w) p) eqn:Hf; simpl; [|by eexists].
  apply is_file_spec in Hf as [c Hc]. rewrite Hc. by eexists.
Qed.

Lemma rmtree_if_dir_total p : total (rmtree_if_dir p).
Proof.
  unfold rmtree_if_dir, os_path_isdir, shutil_rmtree.
  apply total_bind; [apply total_gets|intros b].
  apply total_when, total_modify.
Qed.

Ltac total_step :=
  first [ apply total_ret
        | apply total_gets
        | apply total_modify
        | apply remove_if_file_total
        | apply rmtree_if_dir_total
        | apply total_when
        | apply total_for_each; intros ?
        | apply total_bind; [|intros ?] ].

(** A property established by [c] and kept by what follows holds at the
    end; so does a property established by what follows a [c] that cannot
    raise. *)
Lemma ensures_here {A B} (R : relation world) (P : world -> Prop)
      (c : M A) (k : A -> M B) :
  (forall w w', R w w' -> P w -> P w') ->
  (forall w, P (c w).2) -> (forall a, stable R (k a)) ->
  forall w, P ((c ≫= k) w).2.
Proof.
  intros HR Hc Hk w. rewrite bind_run. specialize (Hc w).
  destruct (c w) as [[a|e] w']; simpl in *; [|done].
  by apply (HR w' _ (Hk a w')).
Qed.

Lemma ensures_later {A B} (P : world -> Prop) (c : M A) (k : A -> M B) :
  total c -> (forall a w, P (k a w).2) -> forall w, P ((c ≫= k) w).2.
Proof.
  intros Hc Hk w. rewrite bind_run. destruct (Hc w) as [a Ha].
  destruct (c w) as [[a'|e] w']; simpl in *; [apply Hk|done].
Qed.

Section Wipe.
Context (loc : locations) (os : host) (cfg : plugin_config).

Lemma wipe_stores_total d : total (wipe_stores loc d).
Proof.
  unfold wipe_stores, wipe_identity, wipe_cache, wipe_data, wipe_logs,
    wipe_configs.
  repeat total_step.
Qed.

Lemma hardware_reset_total tl m : total (hardware_reset tl m).
Proof.
  unfold hardware_reset. apply total_bind; [apply total_gets|intros plugs].
  case_match; [|apply total_ret].
  unfold bus_on, emit, bus_remove. repeat total_step.
Qed.

Lemma run_script_total m : total (run_script os cfg m).
Proof.
  unfold run_script, os_path_isfile, emit, shell.
  destruct (use_external_factory_reset os cfg); repeat total_step.
Qed.

Lemma request_reboot_total m : total (request_reboot m).
Proof. unfold request_reboot, emit. repeat total_step. Qed.

Lemma factory_reset_total tl m :
  total (handle_factory_reset_request loc os cfg tl m).
Proof.
  unfold handle_factory_reset_request.
  apply total_bind; [apply total_modify|intros _].
  apply total_bind; [apply total_modify|intros _].
  apply total_bind; [apply wipe_stores_total|intros _].
  apply total_bind; [apply hardware_reset_total|intros _].
  apply total_bind; [apply run_script_total|intros _].
  apply request_reboot_total.
Qed.

End Wipe.

Ltac keeps_fs :=
  let w := fresh "w" in
  intros w; apply wiped_same_fs; reflexivity.

Section WipeFrame.
Context (loc : locations) (os : host) (cfg : plugin_config).

Lemma wipe_identity_wiped d :
  stable (wiped (wipe_target loc d)) (wipe_identity loc).
Proof.
  unfold wipe_identity. apply (stable_bind _); [|intros _];
    apply remove_if_file_wiped; unfold wipe_target; auto.
Qed.

Lemma wipe_cache_wiped d :
  stable (wiped (wipe_target loc d)) (wipe_cache loc d).
Proof.
  unfold wipe_cache. destruct (truthy _) eqn:Hf; [apply (stable_when _)|apply (stable_ret _)].
  apply rmtree_if_dir_wiped. unfold wipe_target, flag. auto.
Qed.

Lemma for_each_remove_wiped (allowed : string -> Prop) (paths : list string) :
  (forall p, p ∈ paths -> allowed p) ->
  stable (wiped allowed) (for_each paths remove_if_file).
Proof.
  induction paths as [|p paths IH]; intros Hall; simpl; [apply (stable_ret _)|].
  apply (stable_bind _); [|intros _].
  - apply remove_if_file_wiped, Hall. by left.
  - apply IH. intros q Hq. apply Hall. by right.
Qed.

Lemma for_each_fmap {A B} (f : A -> B) (l : list A) (body : B -> M unit) :
  for_each l (fun x => body (f x)) = for_each (f <$> l) body.
Proof. induction l as [|x l IH]; simpl; [done|]. by rewrite IH. Qed.

Lemma wipe_data_wiped d :
  stable (wiped (wipe_target loc d)) (wipe_data loc d).
Proof.
  unfold wipe_data. destruct (truthy _) eqn:Hf; [apply (stable_when _)|apply (stable_ret _)].
  assert (Hs : forall p, p ∈ store_files loc -> wipe_target loc d p).
  { intros p Hp. unfold wipe_target, flag. auto 10. }
  apply (stable_bind _); [|intros _].
  { apply rmtree_if_dir_wiped. unfold wipe_target, flag. auto 10. }
  rewrite (for_each_fmap (JsonStorageXDG_path loc) json_storages remove_if_file),
    (for_each_fmap (JsonDatabaseXDG_path loc) json_databases remove_if_file).
  apply (stable_bind _); [|intros _]; apply for_each_remove_wiped;
    intros p Hp; apply Hs, elem_of_app; auto.
Qed.

Lemma wipe_logs_wiped d :
  stable (wiped (wipe_target loc d)) (wipe_logs loc d).
Proof.
  unfold wipe_logs. destruct (truthy _) eqn:Hf; [apply (stable_when _)|apply (stable_ret _)].
  apply rmtree_if_dir_wiped. unfold wipe_target, flag. auto 10.
Qed.

Lemma wipe_configs_wiped d :
  stable (wiped (wipe_target loc d)) (wipe_configs loc d).
Proof.
  unfold wipe_configs. destruct (truthy _) eqn:Hf; [apply (stable_when _)|apply (stable_ret _)].
  assert (Hs : forall p, p ∈ config_files loc -> wipe_target loc d p).
  { intros p Hp. unfold wipe_target, flag. auto 10. }
  repeat (apply (stable_bind _); [|intros _]);
    apply remove_if_file_wiped, Hs; unfold config_files; repeat constructor.
Qed.

Lemma wipe_stores_wiped d :
  stable (wiped (wipe_target loc d)) (wipe_stores loc d).
Proof.
  unfold wipe_stores.
  apply (stable_bind _); [apply wipe_identity_wiped|intros _].
  apply (stable_bind _); [apply wipe_cache_wiped|intros _].
  apply (stable_bind _); [apply wipe_data_wiped|intros _].
  apply (stable_bind _); [apply wipe_logs_wiped|intros _].
  apply wipe_configs_wiped.
Qed.

Lemma hardware_reset_keeps_fs allowed tl m :
  stable (wiped allowed) (hardware_reset tl m).
Proof.
  intros w. apply wiped_same_fs. unfold hardware_reset. run.
  by case_match.
Qed.

Lemma run_script_keeps_fs allowed m :
  stable (wiped allowed) (run_script os cfg m).
Proof.
  unfold run_script, os_path_isfile.
  destruct (use_external_factory_reset os cfg);
    repeat stable_step (wiped allowed); keeps_fs.
Qed.

Lemma request_reboot_keeps_fs allowed m :
  stable (wiped allowed) (request_reboot m).
Proof.
  unfold request_reboot. repeat stable_step (wiped allowed); keeps_fs.
Qed.

(** After the wipes nothing touches the filesystem. *)
Lemma after_wipe_keeps_fs allowed tl m :
  stable (wiped allowed)
         (hardware_reset tl m;; run_script os cfg m;; request_reboot m).
Proof.
  apply (stable_bind _); [apply hardware_reset_keeps_fs|intros _].
  apply (stable_bind _); [apply run_script_keeps_fs|intros _].
  apply request_reboot_keeps_fs.
Qed.

Lemma factory_reset_wiped tl m :
  stable (wiped (wipe_target loc (data m)))
         (handle_factory_reset_request loc os cfg tl m).
Proof.
  unfold handle_factory_reset_request.
  apply (stable_bind _); [keeps_fs|intros _].
  apply (stable_bind _); [keeps_fs|intros _].
  apply (stable_bind _); [apply wipe_stores_wiped|intros _].
  apply after_wipe_keeps_fs.
Qed.


End WipeFrame.



Section WipeFlags.
Context (loc : locations) (os : host) (cfg : plugin_config).

Lemma for_each_remove_gone (allowed : string -> Prop) (paths : list string) p :
  (forall q, q ∈ paths -> allowed q) -> p ∈ paths ->
  forall w, is_file (fs (for_each paths remove_if_file w).2) p = false.
Proof.
  induction paths as [|q paths IH]; intros Hall Hp; [by inversion Hp|].
  simpl. destruct (decide (p = q)) as [->|Hne].
  - apply (ensures_here (wiped allowed)
             (fun w => is_file (fs w) q = false)).
    + intros w w'. apply wiped_not_file.
    + apply remove_if_file_gone.
    + intros _. apply for_each_remove_wiped. intros x Hx. apply Hall. by right.
  - apply (ensures_later (fun w => is_file (fs w) p = false));
      [apply remove_if_file_total|intros _].
    apply IH; [intros x Hx; apply Hall; by right|].
    by apply elem_of_cons in Hp as [?|?].
Qed.

Lemma wipe_cache_gone d :
  flag d "wipe_cache" ->
  forall w, is_dir (fs (wipe_stores loc d w).2) (cache_dir loc) = false.
Proof.
  intros Hf. unfold wipe_stores.
  apply (ensures_later (fun w => is_dir (fs w) (cache_dir loc) = false));
    [unfold wipe_identity; repeat total_step|intros _].
  apply (ensures_here (wiped (wipe_target loc d)) (fun w => is_dir (fs w) (cache_dir loc) = false)).
  - intros w w'. apply wiped_not_dir.
  - unfold wipe_cache. rewrite Hf. apply rmtree_if_dir_gone.
  - intros _.
    apply (stable_bind _); [apply wipe_data_wiped|intros _].
    apply (stable_bind _); [apply wipe_logs_wiped|intros _].
    apply wipe_configs_wiped.
Qed.

Lemma wipe_data_total d : total (wipe_data loc d).
Proof. unfold wipe_data. repeat total_step. Qed.

Lemma wipe_data_gone d :
  flag d "wipe_data" ->
  forall w, is_dir (fs (wipe_stores loc d w).2) (data_dir loc) = false.
Proof.
  intros Hf. unfold wipe_stores.
  apply (ensures_later (fun w => is_dir (fs w) (data_dir loc) = false));
    [unfold wipe_identity; repeat total_step|intros _].
  apply (ensures_later (fun w => is_dir (fs w) (data_dir loc) = false));
    [unfold wipe_cache; repeat total_step|intros _].
  apply (ensures_here (wiped (wipe_target loc d)) (fun w => is_dir (fs w) (data_dir loc) = false)).
  - intros w w'. apply wiped_not_dir.
  - unfold wipe_data. rewrite Hf. unfold when.
    apply (ensures_here (wiped (fun _ => True))
             (fun w => is_dir (fs w) (data_dir loc) = false)).
    + intros w w'. apply wiped_not_dir.
    + apply rmtree_if_dir_gone.
    + intros _.
      rewrite (for_each_fmap (JsonStorageXDG_path loc) json_storages remove_if_file),
        (for_each_fmap (JsonDatabaseXDG_path loc) json_databases remove_if_file).
      apply (stable_bind _); [|intros _]; by apply for_each_remove_wiped.
  - intros _.
    apply (stable_bind _); [apply wipe_logs_wiped|intros _].
    apply wipe_configs_wiped.
Qed.

Lemma wipe_logs_gone d :
  flag d "wipe_logs" ->
  forall w, is_dir (fs (wipe_stores loc d w).2) (state_dir loc) = false.
Proof.
  intros Hf. unfold wipe_stores.
  apply (ensures_later (fun w => is_dir (fs w) (state_dir loc) = false));
    [unfold wipe_identity; repeat total_step|intros _].
  apply (ensures_later (fun w => is_dir (fs w) (state_dir loc) = false));
    [unfold wipe_cache; repeat total_step|intros _].
  apply (ensures_later (fun w => is_dir (fs w) (state_dir loc) = false));
    [apply wipe_data_total|intros _].
  apply (ensures_here (wiped (wipe_target loc d)) (fun w => is_dir (fs w) (state_dir loc) = false)).
  - intros w w'. apply wiped_not_dir.
  - unfold wipe_logs. rewrite Hf. apply rmtree_if_dir_gone.
  - intros _. apply wipe_configs_wiped.
Qed.

Lemma store_files_gone d p :
  flag d "wipe_data" -> p ∈ store_files loc ->
  forall w, is_file (fs (wipe_stores loc d w).2) p = false.
Proof.
  intros Hf Hp. unfold wipe_stores.
  apply (ensures_later (fun w => is_file (fs w) p = false));
    [unfold wipe_identity; repeat total_step|intros _].
  apply (ensures_later (fun w => is_file (fs w) p = false));
    [unfold wipe_cache; repeat total_step|intros _].
  apply (ensures_here (wiped (wipe_target loc d)) (fun w => is_file (fs w) p = false)).
  - intros w w'. apply wiped_not_file.
  - unfold wipe_data. rewrite Hf. unfold when.
    apply (ensures_later (fun w => is_file (fs w) p = false));
      [apply rmtree_if_dir_total|intros _].
    rewrite (for_each_fmap (JsonStorageXDG_path loc) json_storages remove_if_file),
      (for_each_fmap (JsonDatabaseXDG_path loc) json_databases remove_if_file).
    apply elem_of_app in Hp as [Hp|Hp].
    + apply (ensures_here (wiped (fun _ => True))
               (fun w => is_file (fs w) p = false)).
      * intros w w'. apply wiped_not_file.
      * by apply (for_each_remove_gone (fun _ => True)).
      * intros _. by apply for_each_remove_wiped.
    + apply (ensures_later (fun w => is_file (fs w) p = false));
        [apply total_for_each; intros; apply remove_if_file_total|intros _].
      by apply (for_each_remove_gone (fun _ => True)).
  - intros _.
    apply (stable_bind _); [apply wipe_logs_wiped|intros _].
    apply wipe_configs_wiped.
Qed.

(** What holds once the stores are wiped holds when the handler is done. *)
Lemma after_wipe_stores (P : world -> Prop) tl m :
  (forall allowed w w', wiped allowed w w' -> P w -> P w') ->
  (forall w, P (wipe_stores loc (data m) w).2) ->
  forall w, P (handle_factory_reset_request loc os cfg tl m w).2.
Proof.
  intros HP Hw. unfold handle_factory_reset_request.
  apply (ensures_later P); [apply total_modify|intros _].
  apply (ensures_later P); [apply total_modify|intros _].
  apply (ensures_here (wiped (fun _ => True)) P);
    [apply HP|apply Hw|intros _; apply after_wipe_keeps_fs].
Qed.

End WipeFlags.

Section WipeFlagsIndependent.
Context (loc : locations) (os : host) (cfg : plugin_config).

(** C5. When the configuration files lie apart from the other targets, a
    reset with [wipe_configs] false and [wipe_cache], [wipe_data],
    [wipe_logs] true leaves the three configuration files as they were; no
    directory is left at the cache, data and state paths, and where there
    was one, nothing is left below it; none of the named store files is
    left. *)
Theorem wipe_flags_independent tl m w :
  configs_apart loc ->
  truthy (dict_get (data m) "wipe_configs" (VBool true)) = false ->
  flag (data m) "wipe_cache" ->
  flag (data m) "wipe_data" ->
  flag (data m) "wipe_logs" ->
  let w' := (handle_factory_reset_request loc os cfg tl m w).2 in
  (forall c, c ∈ config_files loc -> fs w' !! c = fs w !! c)
  /\ (forall d, d ∈ [cache_dir loc; data_dir loc; state_dir loc] ->
        is_dir (fs w') d = false
        /\ (is_dir (fs w) d = true ->
            forall q, is_under d q = true -> fs w' !! q = None))
  /\ (forall p, p ∈ store_files loc -> is_file (fs w') p = false).
Proof.
  intros Hapart Hcfg Hcache Hdata Hlogs. cbv zeta.
  assert (Hdir : forall d, d ∈ [cache_dir loc; data_dir loc; state_dir loc] ->
            forall w, is_dir (fs (handle_factory_reset_request
                                    loc os cfg tl m w).2) d = false).
  { intros d Hd.
    apply (after_wipe_stores loc os cfg (fun w => is_dir (fs w) d = false)).
    - intros allowed w1 w2. apply wiped_not_dir.
    - rewrite !elem_of_cons in Hd. destruct Hd as [->|[->|[->|Hd]]].
      + by apply wipe_cache_gone.
      + by apply wipe_data_gone.
      + by apply wipe_logs_gone.
      + by inversion Hd. }
  assert (Hfile : forall p, p ∈ store_files loc ->
            forall w, is_file (fs (handle_factory_reset_request
                                     loc os cfg tl m w).2) p = false).
  { intros p Hp.
    apply (after_wipe_stores loc os cfg (fun w => is_file (fs w) p = false)).
    - intros allowed w1 w2. apply wiped_not_file.
    - by apply store_files_gone. }
  destruct (factory_reset_wiped loc os cfg tl m w) as [Hsame Hdirs].
  split; [|split].
  - intros c Hc. destruct (Hsame c) as [E|[_ T]]; [done|exfalso].
    destruct (Hapart c Hc) as (H1 & H2 & H3 & H4 & H5 & H6).
    unfold wipe_target, flag in T.
    destruct T as [?|[?|[[_ ?]|[[_ [?|?]]|[[_ ?]|[? _]]]]]]; congruence.
  - intros d Hd. split; [by apply Hdir|].
    intros Hwas q Hq. apply (Hdirs d); auto.
  - intros p Hp. by apply Hfile.
Qed.

End WipeFlagsIndependent.

Lemma example_configs_apart : configs_apart Example.loc.
Proof.
  unfold configs_apart. apply Forall_forall.
  repeat constructor.
  all: try (vm_compute; (reflexivity || discriminate)).
  all: apply (bool_decide_unpack _); vm_compute; exact I.
Defined.

Lemma wipe_flags_independent_witness :
  let m := Example.request "system.factory.reset"
             {[ "wipe_configs" := VBool false; "reboot" := VBool false ]} in
  let w' := (handle_factory_reset_request Example.loc Example.os Example.cfg
               [] m Example.fresh).2 in
  configs_apart Example.loc
  /\ truthy (dict_get (data m) "wipe_configs" (VBool true)) = false
  /\ flag (data m) "wipe_cache"
  /\ flag (data m) "wipe_data"
  /\ flag (data m) "wipe_logs"
  /\ (forall c, c ∈ config_files Example.loc ->
        fs w' !! c = fs Example.fresh !! c)
  /\ (forall d, d ∈ [cache_dir Example.loc; data_dir Example.loc;
                     state_dir Example.loc] ->
        is_dir (fs w') d = false
        /\ (is_dir (fs Example.fresh) d = true ->
            forall q, is_under d q = true -> fs w' !! q = None))
  /\ (forall p, p ∈ store_files Example.loc -> is_file (fs w') p = false).
Proof.
  intros m w'.
  assert (H1 : truthy (dict_get (data m) "wipe_configs" (VBool true)) = false)
    by (vm_compute; reflexivity).
  assert (H2 : flag (data m) "wipe_cache") by (vm_compute; reflexivity).
  assert (H3 : flag (data m) "wipe_data") by (vm_compute; reflexivity).
  assert (H4 : flag (data m) "wipe_logs") by (vm_compute; reflexivity).
  repeat (split; [assumption || exact example_configs_apart|]).
  exact (wipe_flags_independent Example.loc Example.os Example.cfg [] m
           Example.fresh example_configs_apart H1 H2 H3 H4).
Defined.

(** ** What a handler adds to the trace *)

#[local] Instance extends_preorder P : PreOrder (extends P).
Proof.
  split.
  - intros w. exists []. by rewrite app_nil_r.
  - intros w1 w2 w3 (l1 & E1 & H1) (l2 & E2 & H2). exists (l1 ++ l2)%list.
    split; [by rewrite E2, E1, app_assoc|by apply Forall_app].
Qed.

Lemma extends_same P w w' : trace w' = trace w -> extends P w w'.
Proof. intros E. exists []. by rewrite app_nil_r. Qed.

Lemma extends_record (P : effect -> Prop) e :
  P e -> stable (extends P) (modify (record e)).
Proof. intros He w. exists [e]. split; [done|by constructor]. Qed.

Lemma extends_new_effects {A} P (c : M A) w :
  extends P w (c w).2 -> Forall P (new_effects c w).
Proof.
  intros (l & E & Hl). unfold new_effects. by rewrite E, drop_app_length.
Qed.

Ltac keeps_trace :=
  let w := fresh "w" in
  intros w; apply extends_same;
  unfold os_remove, write_file, os_environ, shutil_rmtree, modify, raise;
  simpl; repeat case_match; reflexivity.

Lemma wipe_stores_keeps_trace loc P d : stable (extends P) (wipe_stores loc d).
Proof.
  unfold wipe_stores, wipe_identity, wipe_cache, wipe_data, wipe_logs,
    wipe_configs, remove_if_file, rmtree_if_dir, os_path_isfile,
    os_path_isdir.
  repeat stable_step (extends P); keeps_trace.
Qed.

Section SkipHardware.
Context (loc : locations) (os : host) (cfg : plugin_config).

Lemma hardware_reset_skipped tl m w :
  hardware_skipped m w -> hardware_reset tl m w = (Ok tt, w).
Proof.
  unfold hardware_reset. run. intros [->| ->]; [|done].
  by rewrite andb_false_r.
Qed.

(** C8. With no participant registered, or with [reset_hardware] false, the
    factory reset is the two announcements, the wipes, the script and the
    reboot request, run one after the other: the broadcast to the plugins
    is not emitted, no listener is installed and nothing is waited for. *)
Theorem hardware_reset_skipped_entirely tl m w :
  hardware_skipped m w ->
  handle_factory_reset_request loc os cfg tl m w
  = (emit (forward m "system.factory.reset.start" None);;
     emit (forward m "system.factory.reset.ping" None);;
     wipe_stores loc (data m);;
     run_script os cfg m;;
     request_reboot m) w
  /\ Forall not_hardware
            (new_effects (handle_factory_reset_request loc os cfg tl m) w).
Proof.
  intros Hskip.
  assert (Hrun : handle_factory_reset_request loc os cfg tl m w
    = (emit (forward m "system.factory.reset.start" None);;
       emit (forward m "system.factory.reset.ping" None);;
       wipe_stores loc (data m);;
       run_script os cfg m;;
       request_reboot m) w).
  { unfold handle_factory_reset_request.
    do 2 (rewrite bind_run; simpl; symmetry; rewrite bind_run; simpl; symmetry).
    rewrite !(bind_run (wipe_stores loc (data m))).
    match goal with
    | |- context [wipe_stores loc (data m) ?w2] =>
        pose proof (wipe_stores_same_plugs loc (data m) w2) as Hplugs;
        destruct (wipe_stores loc (data m) w2) as [[[]|e] w3]; [|done]
    end.
    rewrite bind_run, (hardware_reset_skipped tl m w3); [done|].
    destruct Hskip as [Hnone|Hflag]; [left|by right].
    unfold same_plugs in Hplugs. simpl in Hplugs. by rewrite Hplugs. }
  split; [exact Hrun|].
  unfold new_effects. rewrite Hrun. apply extends_new_effects. revert w Hskip Hrun.
  intros w _ _. revert w.
  apply (stable_bind _); [by apply extends_record|intros _].
  apply (stable_bind _); [by apply extends_record|intros _].
  apply (stable_bind _); [apply wipe_stores_keeps_trace|intros _].
  apply (stable_bind _); [|intros _].
  - unfold run_script, os_path_isfile.
    destruct (use_external_factory_reset os cfg);
      repeat stable_step (extends not_hardware);
      try (by apply extends_record); keeps_trace.
  - unfold request_reboot. apply (stable_when _). by apply extends_record.
Qed.

End SkipHardware.

Lemma hardware_reset_skipped_entirely_witness :
  let m := Example.request "system.factory.reset"
                           {[ "reset_hardware" := VBool true ]} in
  hardware_skipped m Example.fresh
  /\ handle_factory_reset_request Example.loc Example.os Example.cfg
       [(200, Example.ack "A")] m Example.fresh
     = (emit (forward m "system.factory.reset.start" None);;
        emit (forward m "system.factory.reset.ping" None);;
        wipe_stores Example.loc (data m);;
        run_script Example.os Example.cfg m;;
        request_reboot m) Example.fresh
  /\ Forall not_hardware
       (new_effects (handle_factory_reset_request Example.loc Example.os
                       Example.cfg [(200, Example.ack "A")] m) Example.fresh).
Proof.
  intros m.
  assert (H : hardware_skipped m Example.fresh) by (left; reflexivity).
  split; [exact H|].
  exact (hardware_reset_skipped_entirely Example.loc Example.os Example.cfg
           [(200, Example.ack "A")] m Example.fresh H).
Defined.

(** ** The acknowledgment wait *)

Lemma covered_ext acks acks' plugs :
  (forall s, py_in s acks = py_in s acks') ->
  covered acks plugs = covered acks' plugs.
Proof.
  intros H. unfold covered. induction plugs as [|s plugs IH]; simpl; [done|].
  by rewrite H, IH.
Qed.

Lemma covered_app acks l1 l2 :
  covered acks (l1 ++ l2) = (covered acks l1 && covered acks l2)%bool.
Proof. unfold covered. apply forallb_app. Qed.

Lemma covered_register_false acks d plugs :
  covered acks plugs = false -> covered acks (register_plug d plugs) = false.
Proof.
  intros H. unfold register_plug, append_if_absent.
  repeat case_match; try done. by rewrite covered_app, H.
Qed.

Lemma acked_app (tl1 tl2 : timeline) :
  acked (tl1 ++ tl2) = (acked tl1 ++ acked tl2)%list.
Proof. unfold acked. apply omap_app. Qed.

Lemma known_app plugs (tl1 tl2 : timeline) :
  known plugs (tl1 ++ tl2) = known (known plugs tl1) tl2.
Proof. unfold known. apply foldl_app. Qed.

Lemma all_acked_covered plugs tl :
  all_acked plugs tl = covered (acked tl) (known plugs tl).
Proof. reflexivity. Qed.

Lemma wait_outcome_step plugs seen x rest r :
  x.1 < wait_timeout ->
  all_acked plugs seen = false ->
  wait_outcome plugs (seen ++ [x]) rest r ->
  wait_outcome plugs seen (x :: rest) r.
Proof.
  intros Ht Hseen. unfold wait_outcome. destruct (is_set r).
  - intros (pre & t & d & post & -> & Hb & Hall & Hfirst & He).
    exists (x :: pre), t, d, post. split; [done|]. split; [|split; [|split]].
    + by constructor.
    + by rewrite <- app_assoc in Hall.
    + intros [|y pre1] pre2 E.
      * by rewrite app_nil_r.
      * injection E as <- E. rewrite cons_middle, app_assoc.
        by eapply Hfirst.
    + done.
  - intros [He Hnever]. split; [done|].
    intros [|y pre] post E Hb.
    + by rewrite app_nil_r.
    + injection E as <- E. rewrite cons_middle, app_assoc.
      apply (Hnever pre post); [done|]. by inversion Hb.
Qed.

Lemma event_wait_outcome plugs0 (rest : timeline) :
  forall (seen : timeline) st,
    (forall s, py_in s (reset_plugs st) = py_in s (acked seen)) ->
    event st = false ->
    all_acked plugs0 seen = false ->
    wait_outcome plugs0 seen rest (event_wait rest (known plugs0 seen) st).
Proof.
  induction rest as [|[t a] rest IH]; intros seen st Hrp Hev Hseen.
  { split; [done|]. intros pre post E _.
    symmetry in E. apply app_eq_nil in E as [-> _]. by rewrite app_nil_r. }
  simpl. case_bool_decide as Ht.
  { split; [done|]. intros [|y pre] post E Hb.
    - by rewrite app_nil_r.
    - injection E as <- E. inversion Hb; simpl in *; lia. }
  assert (Ht' : (t, a).1 < wait_timeout) by (simpl; lia).
  destruct a as [d|d].
  - unfold on_done. destruct (d !! "skill_id") as [sid|] eqn:Hd.
    + set (rp := append_if_absent sid (reset_plugs st)).
      assert (Hrp' : forall s, py_in s rp
                               = py_in s (acked (seen ++ [(t, Ack d)]))).
      { intros s. unfold rp. rewrite py_in_append_if_absent, acked_app, py_in_app.
        rewrite Hrp. simpl. rewrite Hd. simpl. by rewrite orb_false_r. }
      assert (Hcov : covered rp (known plugs0 seen)
                     = all_acked plugs0 (seen ++ [(t, Ack d)])).
      { rewrite all_acked_covered, known_app. simpl. by apply covered_ext. }
      fold (covered rp (known plugs0 seen)).
      destruct (covered rp (known plugs0 seen)) eqn:Hc; simpl.
      * exists [], t, d, rest. simpl. split; [done|]. split; [|split; [|split]].
        -- by constructor.
        -- by rewrite <- Hcov.
        -- intros pre1 pre2 E. symmetry in E.
           apply app_eq_nil in E as [-> _]. by rewrite app_nil_r.
        -- done.
      * rewrite Hev. apply wait_outcome_step; [done..|].
        replace (known plugs0 seen) with (known plugs0 (seen ++ [(t, Ack d)]))
          by (by rewrite known_app).
        apply IH; [done|done|by rewrite <- Hcov].
    + apply wait_outcome_step; [done..|].
      replace (known plugs0 seen) with (known plugs0 (seen ++ [(t, Ack d)]))
        by (by rewrite known_app).
      apply IH; [|done|].
      * intros s. rewrite acked_app. simpl. rewrite Hd. simpl.
        by rewrite app_nil_r.
      * rewrite all_acked_covered, known_app, acked_app. simpl. rewrite Hd.
        simpl. by rewrite app_nil_r.
  - apply wait_outcome_step; [done..|].
    replace (register_plug d (known plugs0 seen))
      with (known plugs0 (seen ++ [(t, Register d)]))
      by (by rewrite known_app).
    apply IH; [|done|].
    + intros s. rewrite acked_app. simpl. by rewrite app_nil_r.
    + rewrite all_acked_covered, known_app, acked_app. simpl.
      rewrite app_nil_r. by apply covered_register_false.
Qed.

Lemma all_acked_spec plugs (tl : timeline) :
  all_acked plugs tl = true <->
  forall s, s ∈ known plugs tl ->
            exists t d sid, (t, Ack d) ∈ tl /\ d !! "skill_id" = Some sid
                            /\ py_eq sid s = true.
Proof.
  unfold all_acked. rewrite forallb_forall.
  split; intros H s Hs.
  - apply list_elem_of_In, H, py_in_true in Hs as (sid & Hsid & E).
    apply list_elem_of_omap in Hsid as ([t [d|d]] & Hin & Hd); [|done].
    by exists t, d, sid.
  - apply list_elem_of_In, H in Hs as (t & d & sid & Hin & Hd & E).
    apply py_in_true. exists sid. split; [|done].
    apply list_elem_of_omap. by exists (t, Ack d).
Qed.

Lemma all_acked_nil plugs : plugs <> [] -> all_acked plugs [] = false.
Proof. by destruct plugs. Qed.

(** C2. Let the deliveries [pre] all come before the deadline and carry,
    in whatever order and between whatever else, an acknowledgment for
    every participant known by then. Then the listener sets the event and
    the wait returns before the timeout. *)
Theorem all_acks_release_before_timeout plugs (pre post : timeline) :
  plugs <> [] ->
  before_deadline pre ->
  (forall s, s ∈ known plugs pre ->
     exists t d sid, (t, Ack d) ∈ pre /\ d !! "skill_id" = Some sid
                     /\ py_eq sid s = true) ->
  let r := event_wait (pre ++ post) plugs no_acks in
  is_set r = true /\ 0 <= elapsed r < wait_timeout.
Proof.
  intros Hne Hb Hacks r.
  pose proof (event_wait_outcome plugs (pre ++ post) [] no_acks
                (fun _ => eq_refl) eq_refl (all_acked_nil plugs Hne)) as Hout.
  change (known plugs []) with plugs in Hout. fold r in Hout.
  unfold wait_outcome in Hout. destruct (is_set r).
  - split; [done|].
    destruct Hout as (pre' & t & d & post' & _ & Hb' & _ & _ & ->).
    apply Forall_app in Hb' as [_ Ht]. inversion Ht as [|? ? Ht' _].
    simpl in Ht'. unfold wait_timeout in *. lia.
  - destruct Hout as [_ Hnever]. apply all_acked_spec in Hacks.
    specialize (Hnever pre post eq_refl Hb). simpl in Hnever. congruence.
Qed.

Lemma all_acks_release_before_timeout_witness :
  let plugs := [VStr "A"; VStr "B"] in
  let pre := [(-5, Example.ack "B"); (300, Example.ack "C");
              (1200, Example.ack "B"); (2500, Example.ack "A")] in
  let post := [(70000, Example.ack "D")] in
  let r := event_wait (pre ++ post) plugs no_acks in
  plugs <> []
  /\ before_deadline pre
  /\ (forall s, s ∈ known plugs pre ->
        exists t d sid, (t, Ack d) ∈ pre /\ d !! "skill_id" = Some sid
                        /\ py_eq sid s = true)
  /\ is_set r = true /\ 0 <= elapsed r < wait_timeout.
Proof.
  intros plugs pre post r.
  assert (H1 : plugs <> []) by done.
  assert (H2 : before_deadline pre) by (repeat constructor).
  assert (H3 : forall s, s ∈ known plugs pre ->
            exists t d sid, (t, Ack d) ∈ pre /\ d !! "skill_id" = Some sid
                            /\ py_eq sid s = true).
  { apply all_acked_spec. vm_compute. reflexivity. }
  split; [exact H1|]. split; [exact H2|]. split; [exact H3|].
  exact (all_acks_release_before_timeout plugs pre post H1 H2 H3).
Defined.

Lemma seq_run {B} (c : M unit) (k : M B) w :
  total c -> (c;; k) w = k (c w).2.
Proof.
  intros Hc. rewrite bind_run. destruct (Hc w) as [a Ha].
  by destruct (c w) as [[[]|e] w'].
Qed.

Lemma extends_nothing w w' : extends (fun _ => False) w w' -> trace w' = trace w.
Proof.
  intros (l & -> & Hl). destruct Hl as [|e l He _]; [by rewrite app_nil_r|done].
Qed.

Section AwaitingAcks.
Context (loc : locations) (os : host) (cfg : plugin_config).

Lemma announce_and_wipe_total m : total (announce_and_wipe loc m).
Proof.
  unfold announce_and_wipe.
  apply total_bind; [apply total_modify|intros _].
  apply total_bind; [apply total_modify|intros _].
  apply wipe_stores_total.
Qed.

Lemma announce_and_wipe_world m w :
  factory_reset_plugs (announce_and_wipe loc m w).2 = factory_reset_plugs w
  /\ trace (announce_and_wipe loc m w).2
     = (trace w ++ [EEmit (forward m "system.factory.reset.start" None);
                    EEmit (forward m "system.factory.reset.ping" None)])%list.
Proof.
  unfold announce_and_wipe.
  rewrite (seq_run (emit _)) by apply total_modify.
  rewrite (seq_run (emit _)) by apply total_modify.
  split.
  - by rewrite (wipe_stores_same_plugs loc (data m)).
  - rewrite (extends_nothing _ _ (wipe_stores_keeps_trace loc _ (data m) _)).
    simpl. by rewrite <- app_assoc.
Qed.

Lemma factory_reset_phases tl m w :
  handle_factory_reset_request loc os cfg tl m w
  = (run_script os cfg m;; request_reboot m)
      (hardware_reset tl m (announce_and_wipe loc m w).2).2.
Proof.
  unfold handle_factory_reset_request, announce_and_wipe.
  rewrite !(seq_run (emit _)) by apply total_modify.
  rewrite (seq_run (wipe_stores _ _)) by apply wipe_stores_total.
  by rewrite (seq_run (hardware_reset _ _)) by apply hardware_reset_total.
Qed.

Lemma hardware_reset_waits tl m w :
  truthy (dict_get (data m) "reset_hardware" (VBool true)) = true ->
  factory_reset_plugs w <> [] ->
  let r := event_wait tl (factory_reset_plugs w) no_acks in
  trace (hardware_reset tl m w).2
  = (trace w
     ++ [EBusOn "system.factory.reset.phal.complete";
         EEmit (forward m "system.factory.reset.phal" (Some (data m)));
         EWait (elapsed r) (is_set r);
         EBusRemove "system.factory.reset.phal.complete"])%list.
Proof.
  intros Hflag Hne r. unfold hardware_reset. run. rewrite Hflag.
  destruct (factory_reset_plugs w) as [|s l] eqn:E; [done|].
  simpl. rewrite E. fold r. by rewrite <- !app_assoc.
Qed.

(** C1. With [reset_hardware] true and a participant registered, the
    handler announces the reset, wipes, installs the listener, broadcasts
    and waits. The wait ends with the event set exactly when, at some
    moment before the deadline, every participant known by then had
    acknowledged; it then ends at the first such moment. Otherwise it ends
    at the deadline. In both cases the handler goes on with the script and
    the reboot request and returns without raising. *)
Theorem wait_for_acks_or_deadline tl m w :
  truthy (dict_get (data m) "reset_hardware" (VBool true)) = true ->
  factory_reset_plugs w <> [] ->
  let plugs := factory_reset_plugs w in
  let r := event_wait tl plugs no_acks in
  let waited := (hardware_reset tl m (announce_and_wipe loc m w).2).2 in
  handle_factory_reset_request loc os cfg tl m w
  = (run_script os cfg m;; request_reboot m) waited
  /\ (handle_factory_reset_request loc os cfg tl m w).1 = Ok tt
  /\ trace waited
     = (trace w
        ++ [EEmit (forward m "system.factory.reset.start" None);
            EEmit (forward m "system.factory.reset.ping" None);
            EBusOn "system.factory.reset.phal.complete";
            EEmit (forward m "system.factory.reset.phal" (Some (data m)));
            EWait (elapsed r) (is_set r);
            EBusRemove "system.factory.reset.phal.complete"])%list
  /\ (is_set r = true <->
      exists pre post : timeline,
        tl = (pre ++ post)%list /\ before_deadline pre
        /\ all_acked plugs pre = true)
  /\ (is_set r = true ->
      exists (pre : timeline) t d (post : timeline),
        tl = (pre ++ (t, Ack d) :: post)%list
        /\ before_deadline (pre ++ [(t, Ack d)])
        /\ all_acked plugs (pre ++ [(t, Ack d)]) = true
        /\ (forall pre1 pre2 : timeline,
              pre = (pre1 ++ pre2)%list -> all_acked plugs pre1 = false)
        /\ elapsed r = Z.max 0 t)
  /\ (is_set r = false -> elapsed r = wait_timeout).
Proof.
  intros Hflag Hne plugs r waited.
  pose proof (event_wait_outcome plugs tl [] no_acks
                (fun _ => eq_refl) eq_refl (all_acked_nil plugs Hne)) as Hout.
  change (known plugs []) with plugs in Hout. fold r in Hout.
  unfold wait_outcome, released_by, never_released in Hout. simpl in Hout.
  split; [apply factory_reset_phases|]. split; [|split].
  - destruct (factory_reset_total loc os cfg tl m w) as [[] E]. exact E.
  - unfold waited.
    destruct (announce_and_wipe_world m w) as [Hplugs Htrace].
    rewrite hardware_reset_waits by (by rewrite ?Hplugs).
    rewrite Hplugs, Htrace, <- app_assoc. reflexivity.
  - destruct (is_set r); (split; [split|split]); try done.
    + intros _. destruct Hout as (pre & t & d & post & -> & Hb & Hall & _).
      exists (pre ++ [(t, Ack d)])%list, post.
      by rewrite <- app_assoc.
    + intros (pre & post & -> & Hb & Hall). destruct Hout as [_ Hnever].
      specialize (Hnever pre post eq_refl Hb). congruence.
    + by destruct Hout.
Qed.

End AwaitingAcks.

Lemma wait_for_acks_or_deadline_witness :
  let m := Example.request "system.factory.reset" {[ "reboot" := VBool true ]} in
  let tl := [(100, Example.ack "B"); (61000, Example.ack "A")] in
  let w := Example.two_plugs in
  let r := event_wait tl (factory_reset_plugs w) no_acks in
  truthy (dict_get (data m) "reset_hardware" (VBool true)) = true
  /\ factory_reset_plugs w <> []
  /\ (handle_factory_reset_request Example.loc Example.os Example.cfg tl m w).1
     = Ok tt
  /\ (is_set r = true <->
      exists pre post : timeline,
        tl = (pre ++ post)%list /\ before_deadline pre
        /\ all_acked (factory_reset_plugs w) pre = true)
  /\ (is_set r = false -> elapsed r = wait_timeout).
Proof.
  intros m tl w r.
  assert (H1 : truthy (dict_get (data m) "reset_hardware" (VBool true)) = true)
    by (vm_compute; reflexivity).
  assert (H2 : factory_reset_plugs w <> []) by done.
  destruct (wait_for_acks_or_deadline Example.loc Example.os Example.cfg
              tl m w H1 H2) as (_ & Hok & _ & Hiff & _ & Hdeadline).
  split; [exact H1|]. split; [exact H2|]. split; [exact Hok|].
  split; [exact Hiff|exact Hdeadline].
Defined.

(** ** Configuring the language *)

Section ConfigureLanguage.
Context (loc : locations).





End ConfigureLanguage.



(** The profile of the example after [pt_PT] is configured, and the code
    the completion event carries. *)
Example profile_after_pt_PT :
  let m := Example.request "system.configure.language"
                           {[ "language_code" := VStr "pt_PT" ]} in
  fs Example.fresh !! profile Example.home = Some (File "export EDITOR=vi")
  /\ fs (handle_configure_language_request Example.loc m Example.fresh).2
       !! profile Example.home
     = Some (File ("export LANG=pt_PT" ++ newline))
  /\ normalize_lang "pt_PT" = "pt-pt".
Proof. vm_compute. done. Qed.

(** ** Exceptions *)


Section NoRaise.
Context (loc : locations) (os : host) (cfg : plugin_config).

Lemma truthy_get_some d k :
  truthy (dict_get d k VNone) = true -> is_Some (d !! k).
Proof. unfold dict_get. by destruct (d !! k). Qed.











End NoRaise.



(** ** The wait on the example *)

(** [B] and then [A] acknowledge: the wait ends with the second
    acknowledgment. *)
Example wait_released :
  event_wait [(100, Example.ack "B"); (200, Example.ack "A")]
             [VStr "A"; VStr "B"] no_acks
  = WaitResult 200 true [VStr "A"; VStr "B"]
               (AckState [VStr "B"; VStr "A"] true).
Proof. vm_compute. reflexivity. Qed.

(** Only [B] acknowledges, twice: the wait ends at the deadline. *)
Example wait_timed_out :
  event_wait [(100, Example.ack "B"); (900, Example.ack "B")]
             [VStr "A"; VStr "B"] no_acks
  = WaitResult wait_timeout false [VStr "A"; VStr "B"]
               (AckState [VStr "B"] false).
Proof. vm_compute. reflexivity. Qed.

(** [C] registers while the handler waits for [A] and [B]: the wait goes on
    until [C] too has acknowledged. *)
Example wait_for_late_participant :
  let r := event_wait [(100, Example.ack "B");
                       (150, Register {[ "skill_id" := VStr "C" ]});
                       (200, Example.ack "A");
                       (4000, Example.ack "C")]
                      [VStr "A"; VStr "B"] no_acks in
  (elapsed r, is_set r, plugs_after r)
  = (4000, true, [VStr "A"; VStr "B"; VStr "C"]).
Proof. vm_compute. reflexivity. Qed.

(** * Further properties *)

(** ** The effects of a factory reset, phase by phase *)

#[local] Instance same_fs_preorder : PreOrder same_fs.
Proof. split; unfold same_fs; [done|]. intros ???; congruence. Qed.

Lemma hardware_reset_same_fs tl m w : fs (hardware_reset tl m w).2 = fs w.
Proof. unfold hardware_reset. run. by case_match. Qed.

Lemma hardware_reset_effects tl m w :
  trace (hardware_reset tl m w).2
  = (trace w ++ hardware_effects tl m (factory_reset_plugs w))%list.
Proof.
  unfold hardware_reset, hardware_effects. run.
  case_match; simpl; [|by rewrite app_nil_r].
  by rewrite <- !app_assoc.
Qed.

Lemma run_script_world os cfg m w :
  run_script os cfg m w
  = (Ok tt, World (fs w) (environ w) (factory_reset_plugs w)
                  (trace w ++ script_effects os cfg m (fs w))).
Proof.
  unfold run_script, script_effects, script_due, os_path_isfile, emit, shell.
  destruct w as [f env plugs tr]. run.
  destruct (truthy (dict_get (data m) "script" (VBool true))); simpl;
    [|by rewrite app_nil_r].
  destruct (is_file f (expanduser os (reset_script cfg))); simpl;
    [|by rewrite app_nil_r].
  destruct (use_external_factory_reset os cfg); simpl; unfold record; simpl;
    by rewrite <- ?app_assoc.
Qed.

Lemma request_reboot_world m w :
  request_reboot m w
  = (Ok tt, World (fs w) (environ w) (factory_reset_plugs w)
                  (trace w ++ reboot_effects m)).
Proof.
  unfold request_reboot, reboot_effects, emit. destruct w as [f env plugs tr].
  run. destruct (truthy (dict_get (data m) "reboot" (VBool true))); simpl;
    [done|by rewrite app_nil_r].
Qed.

Lemma announce_and_wipe_fs loc m w :
  fs (announce_and_wipe loc m w).2
  = fs (wipe_stores loc (data m)
          (record (EEmit (forward m "system.factory.reset.ping" None))
             (record (EEmit (forward m "system.factory.reset.start" None)) w))).2.
Proof.
  unfold announce_and_wipe.
  by rewrite !(seq_run (emit _)) by apply total_modify.
Qed.

Section ResetEffects.
Context (loc : locations) (os : host) (cfg : plugin_config).

(** The effects of a factory reset are the two announcements, what the
    broadcast and the wait add, what the script adds, and the reboot
    request, in this order. *)
Lemma factory_reset_effects tl m w :
  new_effects (handle_factory_reset_request loc os cfg tl m) w
  = ([EEmit (forward m "system.factory.reset.start" None);
      EEmit (forward m "system.factory.reset.ping" None)]
     ++ hardware_effects tl m (factory_reset_plugs w)
     ++ script_effects os cfg m (fs (announce_and_wipe loc m w).2)
     ++ reboot_effects m)%list.
Proof.
  unfold new_effects. rewrite factory_reset_phases.
  set (w3 := (announce_and_wipe loc m w).2).
  destruct (announce_and_wipe_world loc m w) as [Hplugs Htrace]. fold w3 in Hplugs, Htrace.
  rewrite (seq_run (run_script os cfg m)) by apply run_script_total.
  rewrite run_script_world, request_reboot_world. simpl.
  rewrite hardware_reset_effects, hardware_reset_same_fs, Hplugs, Htrace.
  rewrite <- !app_assoc. by rewrite drop_app_length.
Qed.

Lemma factory_reset_plugs_after tl m w :
  factory_reset_plugs (handle_factory_reset_request loc os cfg tl m w).2
  = factory_reset_plugs (hardware_reset tl m (announce_and_wipe loc m w).2).2.
Proof.
  rewrite factory_reset_phases.
  rewrite (seq_run (run_script os cfg m)) by apply run_script_total.
  by rewrite run_script_world, request_reboot_world.
Qed.

End ResetEffects.

Section ResetProtocol.
Context (loc : locations) (os : host) (cfg : plugin_config).

Lemma factory_reset_final_fs tl m w :
  fs (handle_factory_reset_request loc os cfg tl m w).2
  = fs (announce_and_wipe loc m w).2.
Proof.
  rewrite factory_reset_phases.
  rewrite (seq_run (run_script os cfg m)) by apply run_script_total.
  rewrite run_script_world, request_reboot_world. simpl.
  apply hardware_reset_same_fs.
Qed.

Lemma emitted_app ty (l1 l2 : list effect) :
  emitted ty (l1 ++ l2) = (emitted ty l1 + emitted ty l2)%nat.
Proof. unfold emitted. by rewrite List.filter_app, length_app. Qed.

Lemma shell_commands_app (l1 l2 : list effect) :
  shell_commands (l1 ++ l2) = (shell_commands l1 ++ shell_commands l2)%list.
Proof. unfold shell_commands. apply omap_app. Qed.

Lemma hardware_effects_quiet tl m plugs :
  emitted "system.factory.reset.complete" (hardware_effects tl m plugs) = 0%nat
  /\ emitted "ovos.shell.exec.factory.reset" (hardware_effects tl m plugs) = 0%nat
  /\ emitted "system.reboot" (hardware_effects tl m plugs) = 0%nat
  /\ shell_commands (hardware_effects tl m plugs) = [].
Proof. unfold hardware_effects. by case_match. Qed.

(** X1. The factory reset runs the reset script, and then emits
    [system.factory.reset.complete], once, when the request asks for the
    script, the configured path is still a file after the wipes and the
    execution is not handed to the shell UI; when it is handed over, the
    handler emits [ovos.shell.exec.factory.reset] once instead and no
    completion. Otherwise it runs no command and emits neither. *)
Theorem reset_script_once tl m w :
  let new := new_effects (handle_factory_reset_request loc os cfg tl m) w in
  let due := script_due os cfg m
               (fs (handle_factory_reset_request loc os cfg tl m w).2) in
  let external := use_external_factory_reset os cfg in
  emitted "system.factory.reset.complete" new
  = (if (due && negb external)%bool then 1 else 0)%nat
  /\ emitted "ovos.shell.exec.factory.reset" new
     = (if (due && external)%bool then 1 else 0)%nat
  /\ shell_commands new
     = (if (due && negb external)%bool
        then [expanduser os (reset_script cfg)] else []).
Proof.
  cbv zeta. rewrite factory_reset_final_fs, factory_reset_effects.
  rewrite !emitted_app, !shell_commands_app.
  destruct (hardware_effects_quiet tl m (factory_reset_plugs w))
    as (-> & -> & _ & ->).
  unfold script_effects, reboot_effects.
  destruct (script_due os cfg m _), (use_external_factory_reset os cfg),
    (truthy (dict_get (data m) "reboot" (VBool true))); done.
Qed.

(** X2. The factory reset emits [system.reboot] once when the [reboot]
    flag of the request is true or absent, and it is then the last thing
    the handler does; with the flag false it is not emitted. *)
Theorem reset_reboot_last tl m w :
  let new := new_effects (handle_factory_reset_request loc os cfg tl m) w in
  let reboot := truthy (dict_get (data m) "reboot" (VBool true)) in
  emitted "system.reboot" new = (if reboot then 1 else 0)%nat
  /\ (if reboot
      then last new = Some (EEmit (forward m "system.reboot" None))
      else True).
Proof.
  cbv zeta. rewrite factory_reset_effects. rewrite !emitted_app.
  destruct (hardware_effects_quiet tl m (factory_reset_plugs w))
    as (_ & _ & -> & _).
  unfold reboot_effects.
  destruct (truthy (dict_get (data m) "reboot" (VBool true))).
  - split.
    + unfold script_effects.
      destruct (script_due os cfg m _), (use_external_factory_reset os cfg); done.
    + rewrite !app_assoc. apply last_snoc.
  - split; [|done]. unfold script_effects.
    destruct (script_due os cfg m _), (use_external_factory_reset os cfg); done.
Qed.

(** X3. When the factory reset returns, the acknowledgment listener it
    may have put on the bus is off again: on time-out as on release. The
    same holds of a registration, which may run the reset. *)
Theorem reset_listener_removed tl m w :
  listeners (new_effects (handle_factory_reset_request loc os cfg tl m) w) = []
  /\ listeners (new_effects (handle_reset_register loc os cfg tl m) w) = [].
Proof.
  assert (Hreset : forall w0,
    listeners (new_effects (handle_factory_reset_request loc os cfg tl m) w0) = []).
  { intros w0. rewrite factory_reset_effects.
    unfold hardware_effects, script_effects, reboot_effects.
    destruct (_ && negb _)%bool, (script_due os cfg m _),
      (use_external_factory_reset os cfg),
      (truthy (dict_get (data m) "reboot" (VBool true))); reflexivity. }
  split; [apply Hreset|].
  unfold new_effects, handle_reset_register.
  destruct (truthy (dict_get (data m) "skill_id" VNone)) eqn:Hid; cbn [negb].
  - apply truthy_get_some in Hid as [sid Hsid]. unfold getitem. rewrite Hsid.
    run. by rewrite drop_all.
  - destruct (existsb (has_key (data m)) legacy_keys); [apply Hreset|].
    unfold when. simpl. by rewrite drop_all.
Qed.

(** X4. Of the messages a factory reset emits, only the broadcast to the
    plugins carries the payload of the request; the announcements, the
    completion and the reboot request carry an empty payload. All of them
    carry the context of the request, but the request sent to the shell UI,
    which has an empty context and the script path for payload. *)
Theorem reset_messages tl m w msg :
  EEmit msg ∈ new_effects (handle_factory_reset_request loc os cfg tl m) w ->
  (msg = forward m "system.factory.reset.phal" (Some (data m)))
  \/ (context msg = context m /\ data msg = ∅
      /\ msg_type msg ∈ ["system.factory.reset.start";
                         "system.factory.reset.ping";
                         "system.factory.reset.complete";
                         "system.reboot"])
  \/ (msg = Message "ovos.shell.exec.factory.reset"
                    {[ "script" := VStr (expanduser os (reset_script cfg)) ]} ∅).
Proof.
  rewrite factory_reset_effects.
  unfold hardware_effects, script_effects, reboot_effects.
  intros Hin.
  repeat (apply elem_of_app in Hin as [Hin|Hin]);
    repeat case_match;
    repeat (apply elem_of_cons in Hin as [Hin|Hin]; [try discriminate Hin|]);
    try (by apply elem_of_nil in Hin);
    injection Hin as ->; auto;
    right; left; (split; [done|split; [done|]]); simpl;
    repeat (first [apply list_elem_of_here|apply list_elem_of_further]).
Qed.

End ResetProtocol.

Lemma reset_messages_witness :
  let m := Message "system.factory.reset" {[ "script" := VBool false ]}
                   {[ "source" := VStr "gui" ]} in
  let msg := forward m "system.reboot" None in
  EEmit msg ∈ new_effects (handle_factory_reset_request Example.loc Example.os
                             Example.cfg [] m) Example.fresh
  /\ ((msg = forward m "system.factory.reset.phal" (Some (data m)))
      \/ (context msg = context m /\ data msg = ∅
          /\ msg_type msg ∈ ["system.factory.reset.start";
                             "system.factory.reset.ping";
                             "system.factory.reset.complete";
                             "system.reboot"])
      \/ (msg = Message "ovos.shell.exec.factory.reset"
                  {[ "script" := VStr (expanduser Example.os
                                         (reset_script Example.cfg)) ]} ∅)).
Proof.
  intros m msg.
  assert (H : EEmit msg ∈ new_effects (handle_factory_reset_request Example.loc
                 Example.os Example.cfg [] m) Example.fresh).
  { rewrite factory_reset_effects. do 3 (apply elem_of_app; right).
    apply list_elem_of_here. }
  split; [exact H|].
  exact (reset_messages Example.loc Example.os Example.cfg [] m Example.fresh
           msg H).
Defined.

(** ** The participant list *)

#[local] Instance plugs_grow_preorder : PreOrder plugs_grow.
Proof.
  split; unfold plugs_grow.
  - by intros w.
  - intros w1 w2 w3 H1 H2. by etrans.
Qed.

Lemma event_wait_plugs_ind (P : list value -> Prop) (tl : timeline) :
  (forall d l, P l -> P (register_plug d l)) ->
  forall plugs st, P plugs -> P (plugs_after (event_wait tl plugs st)).
Proof.
  intros Hreg. induction tl as [|[t a] tl IH]; intros plugs st Hp; [done|].
  simpl. case_bool_decide; [done|]. destruct a as [d|d].
  - destruct (on_done plugs st d) as [st'|e]; [|by apply IH].
    destruct (event st'); [done|by apply IH].
  - by apply IH, Hreg.
Qed.

Lemma hardware_reset_plugs_ind (P : list value -> Prop) tl m w :
  (forall d l, P l -> P (register_plug d l)) ->
  P (factory_reset_plugs w) ->
  P (factory_reset_plugs (hardware_reset tl m w).2).
Proof.
  intros Hreg Hp. unfold hardware_reset. run. case_match; simpl; [|done].
  by apply event_wait_plugs_ind.
Qed.

Section Registry2.
Context (loc : locations) (os : host) (cfg : plugin_config).

(** What holds of the participant list and is kept by a registration is
    kept by the two handlers that write the list. *)
Lemma factory_reset_plugs_ind (P : list value -> Prop) tl m w :
  (forall d l, P l -> P (register_plug d l)) ->
  P (factory_reset_plugs w) ->
  P (factory_reset_plugs (handle_factory_reset_request loc os cfg tl m w).2).
Proof.
  intros Hreg Hp. rewrite factory_reset_plugs_after.
  apply hardware_reset_plugs_ind; [done|].
  by destruct (announce_and_wipe_world loc m w) as [-> _].
Qed.

Lemma reset_register_plugs_ind (P : list value -> Prop) tl m w :
  (forall d l, P l -> P (register_plug d l)) ->
  P (factory_reset_plugs w) ->
  P (factory_reset_plugs (handle_reset_register loc os cfg tl m w).2).
Proof.
  intros Hreg Hp. unfold handle_reset_register.
  destruct (truthy (dict_get (data m) "skill_id" VNone)) eqn:Hid; cbn [negb].
  - pose proof (Hreg (data m) _ Hp) as Hp'. unfold register_plug in Hp'.
    rewrite Hid in Hp'.
    apply truthy_get_some in Hid as [sid Hsid]. unfold getitem.
    rewrite Hsid in *. exact Hp'.
  - destruct (existsb (has_key (data m)) legacy_keys); [|done].
    unfold when. by apply (factory_reset_plugs_ind P).
Qed.

Lemma register_plug_prefix l0 d l :
  l0 `prefix_of` l -> l0 `prefix_of` register_plug d l.
Proof.
  intros H. unfold register_plug, append_if_absent. repeat case_match; try done.
  by apply prefix_app_r.
Qed.

(** X5. The participant list is append-only: whatever a registration or a
    factory reset is given, and whatever is delivered while the reset
    waits, the list from before is the beginning of the list after. *)
Theorem participants_append_only tl m w :
  factory_reset_plugs w
    `prefix_of` factory_reset_plugs (handle_reset_register loc os cfg tl m w).2
  /\ factory_reset_plugs w
       `prefix_of` factory_reset_plugs
                     (handle_factory_reset_request loc os cfg tl m w).2.
Proof.
  split.
  - apply (reset_register_plugs_ind (fun l => factory_reset_plugs w `prefix_of` l));
      [apply register_plug_prefix|done].
  - apply (factory_reset_plugs_ind (fun l => factory_reset_plugs w `prefix_of` l));
      [apply register_plug_prefix|done].
Qed.

Lemma py_nodup_snoc l sid :
  py_nodup l = true -> py_in sid l = false -> py_nodup (l ++ [sid]) = true.
Proof.
  induction l as [|x l IH]; simpl; [done|].
  rewrite !andb_true_iff, !negb_true_iff, orb_false_iff.
  intros [Hx Hl] [Hsx Hsl]. split; [|by apply IH].
  rewrite py_in_app, Hx. simpl. by rewrite py_eq_sym, Hsx.
Qed.

Lemma register_plug_ok d l : registry_ok l -> registry_ok (register_plug d l).
Proof.
  intros [Hnd Ht]. unfold register_plug, append_if_absent, dict_get.
  destruct (d !! "skill_id") as [sid|]; simpl; [|done].
  destruct (truthy sid) eqn:Hsid; [|done].
  destruct (py_in sid l) eqn:Hin; [done|]. split.
  - by apply py_nodup_snoc.
  - rewrite forallb_app, Ht. simpl. by rewrite Hsid.
Qed.

(** X6. The participant list never holds an identifier twice (for
    Python's equality) nor one that is empty, null, zero or false: if this
    is so before a registration or a factory reset, it is so after. *)
Theorem participants_stay_distinct tl m w :
  registry_ok (factory_reset_plugs w) ->
  registry_ok (factory_reset_plugs (handle_reset_register loc os cfg tl m w).2)
  /\ registry_ok (factory_reset_plugs
                    (handle_factory_reset_request loc os cfg tl m w).2).
Proof.
  intros Hok. split.
  - by apply (reset_register_plugs_ind registry_ok); [apply register_plug_ok|].
  - by apply (factory_reset_plugs_ind registry_ok); [apply register_plug_ok|].
Qed.

End Registry2.

Lemma participants_stay_distinct_witness :
  let m := Example.registration "A" in
  let tl := [(10, Register {[ "skill_id" := VStr "C" ]})] in
  registry_ok (factory_reset_plugs Example.two_plugs)
  /\ registry_ok (factory_reset_plugs
                    (handle_reset_register Example.loc Example.os Example.cfg
                                           tl m Example.two_plugs).2)
  /\ registry_ok (factory_reset_plugs
                    (handle_factory_reset_request Example.loc Example.os
                       Example.cfg tl m Example.two_plugs).2).
Proof.
  intros m tl.
  assert (H : registry_ok (factory_reset_plugs Example.two_plugs))
    by (split; reflexivity).
  split; [exact H|].
  exact (participants_stay_distinct Example.loc Example.os Example.cfg tl m
           Example.two_plugs H).
Defined.

(** ** The wait is bounded *)


(** ** Resetting twice *)

Lemma remove_if_file_noop p w :
  is_file (fs w) p = false -> remove_if_file p w = (Ok tt, w).
Proof. intros H. unfold remove_if_file, os_path_isfile. run. by rewrite H. Qed.

Lemma rmtree_if_dir_noop p w :
  is_dir (fs w) p = false -> rmtree_if_dir p w = (Ok tt, w).
Proof. intros H. unfold rmtree_if_dir, os_path_isdir. run. by rewrite H. Qed.

Lemma for_each_remove_noop (paths : list string) w :
  (forall p, p ∈ paths -> is_file (fs w) p = false) ->
  for_each paths remove_if_file w = (Ok tt, w).
Proof.
  induction paths as [|p paths IH]; intros H; [done|].
  simpl. rewrite bind_run, remove_if_file_noop by (apply H; by left).
  apply IH. intros q Hq. apply H. by right.
Qed.

Section ResetTwice.
Context (loc : locations) (os : host) (cfg : plugin_config).

Lemma wipe_stores_noop d w :
  wiped_out loc d (fs w) -> wipe_stores loc d w = (Ok tt, w).
Proof.
  intros (Hold & Hid & Hcache & Hdata & Hlogs & Hcfg).
  unfold wipe_stores, wipe_identity.
  rewrite bind_run, bind_run, !remove_if_file_noop by done.
  rewrite bind_run.
  assert (Ec : wipe_cache loc d w = (Ok tt, w)).
  { unfold wipe_cache. destruct (truthy _) eqn:Hf; [|done].
    by apply rmtree_if_dir_noop, Hcache. }
  rewrite Ec, bind_run.
  assert (Ed : wipe_data loc d w = (Ok tt, w)).
  { unfold wipe_data. destruct (truthy _) eqn:Hf; [|done].
    destruct (Hdata Hf) as [Hdir Hstores]. unfold when.
    rewrite bind_run, rmtree_if_dir_noop by done.
    rewrite (for_each_fmap (JsonStorageXDG_path loc) json_storages remove_if_file),
      (for_each_fmap (JsonDatabaseXDG_path loc) json_databases remove_if_file).
    rewrite bind_run, for_each_remove_noop
      by (intros p Hp; apply Hstores, elem_of_app; by left).
    apply for_each_remove_noop. intros p Hp. apply Hstores, elem_of_app. by right. }
  rewrite Ed, bind_run.
  assert (El : wipe_logs loc d w = (Ok tt, w)).
  { unfold wipe_logs. destruct (truthy _) eqn:Hf; [|done].
    by apply rmtree_if_dir_noop, Hlogs. }
  rewrite El.
  unfold wipe_configs. destruct (truthy _) eqn:Hf; [|done]. unfold when.
  rewrite bind_run, remove_if_file_noop by (apply (Hcfg Hf); repeat constructor).
  rewrite bind_run, remove_if_file_noop by (apply (Hcfg Hf); repeat constructor).
  apply remove_if_file_noop, (Hcfg Hf). repeat constructor.
Qed.

Lemma wiped_out_kept allowed d w w' :
  wiped allowed w w' -> wiped_out loc d (fs w) -> wiped_out loc d (fs w').
Proof.
  intros Hw (Hold & Hid & Hcache & Hdata & Hlogs & Hcfg).
  pose proof (wiped_not_file allowed w w') as Hfile.
  pose proof (wiped_not_dir allowed w w') as Hdir.
  repeat split; auto.
  - by apply Hdir, Hdata.
  - intros p Hp. by apply Hfile, Hdata.
Qed.

Lemma wipe_tail_wiped d :
  stable (wiped (wipe_target loc d))
         (wipe_cache loc d;; wipe_data loc d;; wipe_logs loc d;;
          wipe_configs loc d).
Proof.
  apply (stable_bind _); [apply wipe_cache_wiped|intros _].
  apply (stable_bind _); [apply wipe_data_wiped|intros _].
  apply (stable_bind _); [apply wipe_logs_wiped|intros _].
  apply wipe_configs_wiped.
Qed.

Lemma identity_gone d w :
  is_file (fs (wipe_stores loc d w).2) (OLD_IDENTITY_FILE loc) = false
  /\ is_file (fs (wipe_stores loc d w).2) (IDENTITY_FILE loc) = false.
Proof.
  unfold wipe_stores, wipe_identity. split; revert w.
  - apply (ensures_here (wiped (wipe_target loc d))
             (fun w => is_file (fs w) (OLD_IDENTITY_FILE loc) = false)).
    + intros w w'. apply wiped_not_file.
    + apply (ensures_here (wiped (wipe_target loc d))
               (fun w => is_file (fs w) (OLD_IDENTITY_FILE loc) = false)).
      * intros w w'. apply wiped_not_file.
      * apply remove_if_file_gone.
      * intros _. apply remove_if_file_wiped. unfold wipe_target. auto.
    + intros _. apply wipe_tail_wiped.
  - apply (ensures_here (wiped (wipe_target loc d))
             (fun w => is_file (fs w) (IDENTITY_FILE loc) = false)).
    + intros w w'. apply wiped_not_file.
    + apply (ensures_later (fun w => is_file (fs w) (IDENTITY_FILE loc) = false));
        [apply remove_if_file_total|intros _]. apply remove_if_file_gone.
    + intros _. apply wipe_tail_wiped.
Qed.

Lemma config_files_gone d c :
  flag d "wipe_configs" -> c ∈ config_files loc ->
  forall w, is_file (fs (wipe_stores loc d w).2) c = false.
Proof.
  intros Hf Hc. unfold wipe_stores.
  apply (ensures_later (fun w => is_file (fs w) c = false));
    [unfold wipe_identity; repeat total_step|intros _].
  apply (ensures_later (fun w => is_file (fs w) c = false));
    [unfold wipe_cache; repeat total_step|intros _].
  apply (ensures_later (fun w => is_file (fs w) c = false));
    [apply wipe_data_total|intros _].
  apply (ensures_later (fun w => is_file (fs w) c = false));
    [unfold wipe_logs; repeat total_step|intros _].
  unfold wipe_configs. rewrite Hf. unfold when, config_files in *.
  rewrite !elem_of_cons in Hc. destruct Hc as [->|[->|[->|Hc]]].
  - apply (ensures_here (wiped (fun _ => True))
             (fun w => is_file (fs w) (OLD_USER_CONFIG loc) = false)).
    + intros w w'. apply wiped_not_file.
    + apply remove_if_file_gone.
    + intros _. apply (stable_bind _); [|intros _];
        by apply remove_if_file_wiped.
  - apply (ensures_later (fun w => is_file (fs w) (USER_CONFIG loc) = false));
      [apply remove_if_file_total|intros _].
    apply (ensures_here (wiped (fun _ => True))
             (fun w => is_file (fs w) (USER_CONFIG loc) = false)).
    + intros w w'. apply wiped_not_file.
    + apply remove_if_file_gone.
    + intros _. by apply remove_if_file_wiped.
  - apply (ensures_later (fun w => is_file (fs w) (WEB_CONFIG_CACHE loc) = false));
      [apply remove_if_file_total|intros _].
    apply (ensures_later (fun w => is_file (fs w) (WEB_CONFIG_CACHE loc) = false));
      [apply remove_if_file_total|intros _].
    apply remove_if_file_gone.
  - by apply elem_of_nil in Hc.
Qed.

Lemma wiped_out_after d w : wiped_out loc d (fs (wipe_stores loc d w).2).
Proof.
  destruct (identity_gone d w) as [Hold Hid].
  split; [done|]. split; [done|]. split; [|split; [|split]].
  - intros Hf. by apply wipe_cache_gone.
  - intros Hf. split; [by apply wipe_data_gone|].
    intros p Hp. by apply store_files_gone.
  - intros Hf. by apply wipe_logs_gone.
  - intros Hf c Hc. by apply config_files_gone.
Qed.

(** X8. A factory reset that follows a factory reset with the same payload
    finds nothing left to delete: the filesystem after the second is the
    filesystem after the first. *)
Theorem reset_twice tl tl' m m' w :
  data m' = data m ->
  let once := (handle_factory_reset_request loc os cfg tl m w).2 in
  fs (handle_factory_reset_request loc os cfg tl' m' once).2 = fs once.
Proof.
  intros Hdata.
  assert (Hout : forall w0, wiped_out loc (data m)
            (fs (handle_factory_reset_request loc os cfg tl m w0).2)).
  { apply (after_wipe_stores loc os cfg
             (fun w => wiped_out loc (data m) (fs w))).
    - intros allowed w1 w2. apply wiped_out_kept.
    - apply wiped_out_after. }
  intros once. specialize (Hout w). fold once in Hout.
  rewrite factory_reset_final_fs, announce_and_wipe_fs, Hdata.
  by rewrite wipe_stores_noop.
Qed.

End ResetTwice.

Lemma reset_twice_witness :
  let m := Example.request "system.factory.reset" {[ "reboot" := VBool false ]} in
  let m' := Message "system.factory.reset" {[ "reboot" := VBool false ]}
                    {[ "source" := VStr "gui" ]} in
  let once := (handle_factory_reset_request Example.loc Example.os Example.cfg
                 [] m Example.two_plugs).2 in
  data m' = data m
  /\ fs (handle_factory_reset_request Example.loc Example.os Example.cfg
           [(5, Example.ack "A")] m' once).2 = fs once.
Proof.
  intros m m' once.
  assert (H : data m' = data m) by reflexivity.
  split; [exact H|].
  exact (reset_twice Example.loc Example.os Example.cfg [] [(5, Example.ack "A")]
           m m' Example.two_plugs H).
Defined.

Section LegacyConfigKey.
Context (loc : locations) (os : host) (cfg : plugin_config).

(** X9. The deprecated reset request is recognised by the key
    [wipe_config], among others, but the reset reads [wipe_configs]: a
    registration without [skill_id] that has [wipe_config], whatever its
    value, and no [wipe_configs] leaves none of the three configuration
    files. *)
Theorem legacy_wipe_config_not_read tl m w c :
  truthy (dict_get (data m) "skill_id" VNone) = false ->
  has_key (data m) "wipe_config" = true ->
  data m !! "wipe_configs" = None ->
  c ∈ config_files loc ->
  is_file (fs (handle_reset_register loc os cfg tl m w).2) c = false.
Proof.
  intros Hid Hkey Hnone Hc. unfold handle_reset_register. rewrite Hid.
  cbn [negb].
  replace (existsb (has_key (data m)) legacy_keys) with true
    by (simpl; rewrite Hkey; by rewrite !orb_true_r).
  unfold when. revert w.
  apply (after_wipe_stores loc os cfg (fun w => is_file (fs w) c = false)).
  - intros allowed w1 w2. apply wiped_not_file.
  - apply config_files_gone; [|done]. unfold flag, dict_get. by rewrite Hnone.
Qed.

End LegacyConfigKey.

Lemma legacy_wipe_config_not_read_witness :
  let m := Example.request "system.factory.reset.register"
             {[ "wipe_config" := VBool false; "reboot" := VBool false ]} in
  let c := USER_CONFIG Example.loc in
  truthy (dict_get (data m) "skill_id" VNone) = false
  /\ has_key (data m) "wipe_config" = true
  /\ data m !! "wipe_configs" = None
  /\ c ∈ config_files Example.loc
  /\ is_file (fs Example.fresh) c = true
  /\ is_file (fs (handle_reset_register Example.loc Example.os Example.cfg
                    [] m Example.fresh).2) c = false.
Proof.
  intros m c.
  assert (H1 : truthy (dict_get (data m) "skill_id" VNone) = false)
    by (vm_compute; reflexivity).
  assert (H2 : has_key (data m) "wipe_config" = true)
    by (vm_compute; reflexivity).
  assert (H3 : data m !! "wipe_configs" = None) by (vm_compute; reflexivity).
  assert (H4 : c ∈ config_files Example.loc) by (repeat constructor).
  split; [exact H1|]. split; [exact H2|]. split; [exact H3|].
  split; [exact H4|]. split; [vm_compute; reflexivity|].
  exact (legacy_wipe_config_not_read Example.loc Example.os Example.cfg [] m
           Example.fresh c H1 H2 H3 H4).
Defined.

(** ** The one-shot handlers *)

Ltac by_cases :=
  unfold new_effects; run; repeat case_match; simpl;
  rewrite <- ?app_assoc, ?drop_app_length, ?drop_all; try done.

Section OneShot.
Context (loc : locations) (os : host) (cfg : plugin_config).

(** X10. The reboot and the shutdown handler each run exactly one shell
    command and leave the filesystem alone: the configured script when its
    path is not empty and is a file, [systemctl reboot -i] or
    [systemctl poweroff -i] otherwise. The payload has no part in the
    choice. *)
Theorem power_commands m w :
  let pick := fun configured fallback =>
    if (negb (String.eqb (expanduser os configured) "")
        && is_file (fs w) (expanduser os configured))%bool
    then expanduser os configured else fallback in
  shell_commands (new_effects (handle_reboot_request loc os cfg m) w)
  = [pick (reboot_script cfg) "systemctl reboot -i"]
  /\ shell_commands (new_effects (handle_shutdown_request loc os cfg m) w)
     = [pick (shutdown_script cfg) "systemctl poweroff -i"]
  /\ fs (handle_reboot_request loc os cfg m w).2 = fs w
  /\ fs (handle_shutdown_request loc os cfg m w).2 = fs w.
Proof.
  cbv zeta.
  unfold handle_reboot_request, handle_shutdown_request, gui_show_page,
    script_or, os_path_isfile, shell.
  destruct (truthy (dict_get (data m) "display" (VBool true))); by_cases.
Qed.

(** X11. The clock handler runs the commands of one time service only:
    those of [ntp] when it is installed, else those of
    [systemd-timesyncd] when that is installed, else none. It emits
    [system.ntp.sync.complete] once when one of the two services is active
    afterwards and not at all otherwise; without an active service it does
    not touch the GUI either. *)
Theorem ntp_sync_effects m w :
  let new := new_effects (handle_ntp_sync_request loc os m) w in
  let active := (check_service_active os "ntp"
                 || check_service_active os "systemd-timesyncd")%bool in
  shell_commands new
  = (if check_service_installed os "ntp"
     then ["service ntp stop"; "ntpd -gq"; "service ntp start"]
     else if check_service_installed os "systemd-timesyncd"
          then ["systemctl stop systemd-timesyncd";
                "systemctl start systemd-timesyncd"]
          else [])
  /\ emitted "system.ntp.sync.complete" new = (if active then 1 else 0)%nat
  /\ existsb is_gui new
     = (active && truthy (dict_get (data m) "display" (VBool false)))%bool.
Proof.
  cbv zeta.
  unfold handle_ntp_sync_request, shell, gui_set, gui_show_page, emit.
  destruct (check_service_installed os "ntp"),
    (check_service_installed os "systemd-timesyncd"),
    (check_service_active os "ntp"),
    (check_service_active os "systemd-timesyncd"),
    (truthy (dict_get (data m) "display" (VBool false)));
    by_cases.
Qed.

(** X12. The restart handler first tries as the user without [sudo]; only
    when that fails does it try once more, with [sudo] and not as the
    user. It returns [False] when both attempts fail and [None] otherwise,
    and does not raise. *)
Theorem restart_attempts_and_result m w :
  let service := core_service_name cfg in
  let first := restart_service_ok os service false true in
  let second := restart_service_ok os service true false in
  (handle_mycroft_restart_request loc os cfg m w).1
  = Ok (if (first || second)%bool then VNone else VBool false)
  /\ restart_attempts (new_effects (handle_mycroft_restart_request loc os cfg m) w)
     = (if first then [(false, true)] else [(false, true); (true, false)]).
Proof.
  cbv zeta.
  unfold handle_mycroft_restart_request, restart_service, try_except,
    gui_show_page.
  destruct (truthy (dict_get (data m) "display" (VBool true))),
    (restart_service_ok os (core_service_name cfg) false true),
    (restart_service_ok os (core_service_name cfg) true false);
    by_cases.
Qed.

(** X13. The handlers for SSH, reboot, shutdown and restart call the GUI
    exactly when [display] is true or absent. *)
Theorem gui_follows_display m w :
  let display := truthy (dict_get (data m) "display" (VBool true)) in
  existsb is_gui (new_effects (handle_ssh_enable_request loc cfg m) w) = display
  /\ existsb is_gui (new_effects (handle_ssh_disable_request loc cfg m) w) = display
  /\ existsb is_gui (new_effects (handle_reboot_request loc os cfg m) w) = display
  /\ existsb is_gui (new_effects (handle_shutdown_request loc os cfg m) w) = display
  /\ existsb is_gui (new_effects (handle_mycroft_restart_request loc os cfg m) w)
     = display.
Proof.
  cbv zeta.
  unfold handle_ssh_enable_request, handle_ssh_disable_request,
    handle_reboot_request, handle_shutdown_request,
    handle_mycroft_restart_request, restart_service, try_except,
    script_or, os_path_isfile, shell, gui_set, gui_show_page.
  destruct (truthy (dict_get (data m) "display" (VBool true))),
    (restart_service_ok os (core_service_name cfg) false true),
    (restart_service_ok os (core_service_name cfg) true false);
    by_cases.
Qed.

End OneShot.

(** ** What the service handlers leave alone *)

Section ServiceFrame.
Context (loc : locations) (os : host) (cfg : plugin_config).







End ServiceFrame.

(** ** The language handler, when it fails and what it leaves alone *)

Section LanguageEdges.
Context (loc : locations).






End LanguageEdges.



(** ** The normalized language code *)




(** ** The validator *)

(** X17. The validator of the user-mode plugin answers [False] exactly
    when the configuration has a true value at
    [PHAL / admin / ovos-PHAL-plugin-system / enabled]; a key missing
    anywhere on the way counts as not enabled. It raises exactly when one
    of the first three keys is there with a value that is no dictionary. *)
Theorem validate_spec (configuration : gmap string conf) :
  let enabled :=
    match conf_path (CDict configuration) admin_enabled_path with
    | Some e => conf_truthy e
    | None => false
    end in
  let broken :=
    exists path v,
      path ∈ [["PHAL"]; ["PHAL"; "admin"];
              ["PHAL"; "admin"; "ovos-PHAL-plugin-system"]]
      /\ conf_path (CDict configuration) path = Some (CLeaf v) in
  match validate configuration with
  | Ok answer => answer = negb enabled /\ ~ broken
  | Raise e => e = AttributeError "get" /\ broken
  end.
Proof.
  cbv zeta. unfold validate, and_then, conf_get, admin_enabled_path. simpl.
  destruct (configuration !! "PHAL") as [[v|phal]|] eqn:E1; simpl.
  - split; [done|]. exists ["PHAL"], v. split; [repeat constructor|].
    simpl. by rewrite E1.
  - destruct (phal !! "admin") as [[v|admin]|] eqn:E2; simpl.
    + split; [done|]. exists ["PHAL"; "admin"], v.
      split; [repeat constructor|]. simpl. by rewrite E1, E2.
    + destruct (admin !! "ovos-PHAL-plugin-system") as [[v|plug]|] eqn:E3; simpl.
      * split; [done|]. exists ["PHAL"; "admin"; "ovos-PHAL-plugin-system"], v.
        split; [repeat constructor|]. simpl. by rewrite E1, E2, E3.
      * destruct (plug !! "enabled") as [e|] eqn:E4; simpl;
          [destruct (conf_truthy e)|]; (split; [done|]);
          intros (path & v & Hpath & Hleaf);
          rewrite !elem_of_cons in Hpath;
          destruct Hpath as [->|[->|[->|Hpath]]];
          try (by apply elem_of_nil in Hpath);
          simpl in Hleaf; rewrite ?E1, ?E2, ?E3 in Hleaf; discriminate.
      * rewrite lookup_empty. simpl. split; [done|].
        intros (path & v & Hpath & Hleaf).
        rewrite !elem_of_cons in Hpath.
        destruct Hpath as [->|[->|[->|Hpath]]];
          try (by apply elem_of_nil in Hpath);
          simpl in Hleaf; rewrite ?E1, ?E2, ?E3 in Hleaf; discriminate.
    + rewrite !lookup_empty. simpl. split; [done|].
      intros (path & v & Hpath & Hleaf).
      rewrite !elem_of_cons in Hpath.
      destruct Hpath as [->|[->|[->|Hpath]]];
        try (by apply elem_of_nil in Hpath);
        simpl in Hleaf; rewrite ?E1, ?E2 in Hleaf; discriminate.
  - rewrite !lookup_empty. simpl. split; [done|].
    intros (path & v & Hpath & Hleaf).
    rewrite !elem_of_cons in Hpath.
    destruct Hpath as [->|[->|[->|Hpath]]];
      try (by apply elem_of_nil in Hpath);
      simpl in Hleaf; rewrite ?E1 in Hleaf; discriminate.
Qed.

(** ** Construction and shutdown *)

Lemma init_world c w :
  let w' := (init (Some c) w).2 in
  (init (Some c) w).1
  = Ok (Attributes (py_or (dict_get c "core_service" VNone) (VStr "ovos.service"))
                   (py_or (dict_get c "ssh_service" VNone) (VStr "sshd.service"))
                   (dict_get c "sudo" (VBool true)))
  /\ trace w' = (trace w ++ (EBusOn <$> init_topics)
                  ++ [EEmit (Message "system.factory.reset.ping" ∅ ∅)])%list
  /\ fs w' = fs w
  /\ environ w' = environ w
  /\ factory_reset_plugs w' = [].
Proof.
  cbv zeta. unfold init, config_get, bus_on, emit.
  unfold mbind, M_bind, bind, mret, M_ret, ret, modify.
  cbn [fst snd fs environ factory_reset_plugs trace record set_plugs].
  repeat split.
  unfold init_topics. cbn [fmap list_fmap]. by rewrite <- !app_assoc.
Qed.

Lemma shutdown_world w :
  (shutdown w).1 = Ok tt
  /\ trace (shutdown w).2 = (trace w ++ (EBusRemove <$> shutdown_topics))%list.
Proof.
  unfold shutdown, bus_remove.
  unfold mbind, M_bind, bind, modify.
  cbn [fst snd trace record]. split; [done|].
  unfold shutdown_topics. cbn [fmap list_fmap]. by rewrite <- !app_assoc.
Qed.

(** X18. Constructed with a configuration, the plugin has subscribed its
    ten handlers, in this order, and then emitted the discovery ping; its
    participant list is empty. Its two service names are the configured
    ones, or [ovos.service] and [sshd.service] where the configuration has
    none or an empty one, and so are never empty. *)
Theorem init_subscribes_and_defaults c w :
  exists attrs,
    (init (Some c) w).1 = Ok attrs
    /\ new_effects (init (Some c)) w
       = ((EBusOn <$> init_topics)
          ++ [EEmit (Message "system.factory.reset.ping" ∅ ∅)])%list
    /\ factory_reset_plugs (init (Some c) w).2 = []
    /\ fs (init (Some c) w).2 = fs w
    /\ truthy (attr_core_service_name attrs) = true
    /\ truthy (attr_ssh_service attrs) = true
    /\ (truthy (dict_get c "core_service" VNone) = false ->
        attr_core_service_name attrs = VStr "ovos.service")
    /\ (truthy (dict_get c "ssh_service" VNone) = false ->
        attr_ssh_service attrs = VStr "sshd.service").
Proof.
  destruct (init_world c w) as (Hres & Htrace & Hfs & _ & Hplugs).
  eexists. split; [exact Hres|].
  unfold new_effects. rewrite Htrace, drop_app_length.
  split; [done|]. split; [done|]. split; [done|].
  unfold py_or. cbn [attr_core_service_name attr_ssh_service].
  destruct (truthy (dict_get c "core_service" VNone)) eqn:E1,
    (truthy (dict_get c "ssh_service" VNone)) eqn:E2; by repeat split.
Qed.

(** X19. Constructed without a configuration, which is the default of the
    argument, the plugin raises [AttributeError]; by then its ten handlers
    are subscribed, but the participant list is untouched and the
    discovery ping is not emitted. *)
Theorem init_without_config w :
  (init None w).1 = Raise (AttributeError "get")
  /\ new_effects (init None) w = EBusOn <$> init_topics
  /\ factory_reset_plugs (init None w).2 = factory_reset_plugs w.
Proof.
  unfold new_effects, init, config_get, bus_on.
  unfold mbind, M_bind, bind, raise, modify.
  cbn [fst snd factory_reset_plugs trace record].
  split; [done|]. split; [|done].
  unfold init_topics. cbn [fmap list_fmap].
  by rewrite <- !app_assoc, drop_app_length.
Qed.

(** X20. [shutdown] takes off the bus every listener the constructor has
    put there but one: after construction and [shutdown], and before the
    base class has its turn, the listener for [system.ssh.status] is still
    subscribed. *)
Theorem shutdown_leaves_ssh_status c w :
  ((init (Some c);; shutdown) w).1 = Ok tt
  /\ listeners (new_effects (init (Some c);; shutdown) w) = ["system.ssh.status"].
Proof.
  unfold new_effects. rewrite bind_run.
  destruct (init_world c w) as (Hres & Htrace & _).
  destruct (init (Some c) w) as [r w1]. simpl in Hres, Htrace. subst r.
  destruct (shutdown_world w1) as [Hok ->]. split; [done|].
  rewrite Htrace, <- !app_assoc, drop_app_length. reflexivity.
Qed.
